(** * Administrative endpoints of danswer: a shallow embedding

    Source: backend/danswer/server/manage/administrative.py

    The handlers of that file orchestrate calls into collaborators that
    live elsewhere (the relational database, the key-value config store,
    the task queue, the file store, the LLM client).  A handler is
    embedded as a program over the calls it makes; running a program
    against an environment yields the sequence of calls with their
    outcomes, the handler's own outcome and the final state. *)

From Stdlib Require Import ZArith String Ascii List Lia Bool.
From Stdlib Require Import Decimal DecimalString DecimalZ DecimalPos DecimalFacts.
From stdpp Require Import base option gmap strings list.

Set Warnings "-register-all".

Open Scope Z_scope.

(** ** Python values *)

(** Exceptions a handler can meet.  [JSONDecodeError] is a subclass of
    [ValueError] in Python; [PyException] stands for any class that is
    unrelated to the ones listed. *)
Inductive exn : Type :=
| HTTPException (status_code : Z) (detail : string)
| ConfigNotFoundError
| ValueError
| JSONDecodeError
| KeyError (key : string)
| TypeError
| OverflowError
| PyException (name : string).

(** [except ValueError] catches the class and its subclasses. *)
Definition isinstance_ValueError (e : exn) : bool :=
  match e with
  | ValueError | JSONDecodeError => true
  | _ => false
  end.

(** A Python expression either returns a value or raises. *)
Inductive outcome (A : Type) : Type :=
| Returned (a : A)
| Raised (e : exn).
Arguments Returned {A} a.
Arguments Raised {A} e.

(** [str(n)] for an [int]. *)
Definition str_int (n : Z) : string := NilZero.string_of_int (Z.to_int n).

(** Truthiness of an [Optional[str]]: [None] and the empty string are
    falsy. *)
Definition truthy (o : option string) : bool :=
  match o with
  | Some (String _ _) => true
  | _ => false
  end.

(** The text of a truthy [Optional[str]]. *)
Definition text_of (o : option string) : string := default EmptyString o.

(** An aware [datetime] in UTC, as the number of microseconds since the
    epoch, and a [timedelta] as a number of microseconds. *)
Definition datetime : Type := Z.
Definition timedelta : Type := Z.

(** [timedelta(seconds=s)] for an [int]: the day count of the normalised
    value has to lie within +-999999999, else [OverflowError]. *)
Definition timedelta_seconds (s : Z) : outcome timedelta :=
  if (-999999999 <=? s / 86400) && (s / 86400 <=? 999999999)
  then Returned (s * 1000000)
  else Raised OverflowError.

(** ** JSON values

    Python's [float] is kept abstract (type [F]): the handlers only pass
    floats through [datetime.timestamp] and [datetime.fromtimestamp].
    A [dict] keeps its insertion order, so it is an association list
    whose keys are distinct. *)
Inductive json (F : Type) : Type :=
| JNull
| JBool (b : bool)
| JInt (n : Z)
| JFloat (f : F)
| JStr (s : string)
| JList (l : list (json F))
| JDict (d : list (string * json F)).
Arguments JNull {F}.
Arguments JBool {F} b.
Arguments JInt {F} n.
Arguments JFloat {F} f.
Arguments JStr {F} s.
Arguments JList {F} l.
Arguments JDict {F} d.

(** [d[k] = v] on an insertion-ordered dict: an existing key keeps its
    place and gets the new value, a new key goes last. *)
Fixpoint dict_set {V : Type} (d : list (string * V)) (k : string) (v : V)
  : list (string * V) :=
  match d with
  | [] => [(k, v)]
  | (k', v') :: d' =>
      if String.eqb k' k then (k', v) :: d' else (k', v') :: dict_set d' k v
  end.

(** A dict display [{k1: v1, ..., kn: vn}] or [dict(pairs)]. *)
Definition py_dict {V : Type} (items : list (string * V)) : list (string * V) :=
  fold_left (fun d kv => dict_set d (fst kv) (snd kv)) items [].

(** The characters of a [str], each as a [str] of length one. *)
Fixpoint str_chars (s : string) : list string :=
  match s with
  | EmptyString => []
  | String c s' => String c EmptyString :: str_chars s'
  end.

(** What a [for] loop iterates over; [None] is "object is not iterable"
    ([TypeError]). *)
Definition py_iter {F : Type} (v : json F) : option (list (json F)) :=
  match v with
  | JList l => Some l
  | JStr s => Some (map JStr (str_chars s))
  | JDict d => Some (map (fun kv => JStr (fst kv)) d)
  | JNull | JBool _ | JInt _ | JFloat _ => None
  end.

(** ** The [json] module

    [json.dumps] and [json.loads] with their default arguments.  A
    Python [str] is modelled by a [string] whose characters are the code
    points below U+0100. *)

(** Not a Python exception: the run has left the fragment of Python that
    the embedding covers (a [\u] escape for a code point above U+00FF).
    No [except] clause of the handlers matches it. *)
Definition NotModelled : exn := PyException "<not modelled>".

(** Not a Python exception either: the decoder of the embedding was
    given too little fuel.  [JSONDecoder_decode] gives enough, see
    [decode_has_fuel]. *)
Definition OutOfFuel : exn := PyException "<out of fuel>".

Definition is_digit (c : ascii) : bool :=
  ((48 <=? N_of_ascii c) && (N_of_ascii c <=? 57))%N.

(** [" \t\n\r"], the [WHITESPACE] of the decoder. *)
Definition is_ws (c : ascii) : bool :=
  match N_of_ascii c with
  | 32%N | 9%N | 10%N | 13%N => true
  | _ => false
  end.

Definition hex_digit (n : N) : ascii :=
  ascii_of_N (if (n <? 10)%N then 48 + n else 87 + n).

(** The value of a character of [[0-9A-Fa-f]]. *)
Definition hex_value (c : ascii) : option N :=
  let n := N_of_ascii c in
  if ((48 <=? n) && (n <=? 57))%N then Some (n - 48)%N
  else if ((97 <=? n) && (n <=? 102))%N then Some (n - 87)%N
  else if ((65 <=? n) && (n <=? 70))%N then Some (n - 55)%N
  else None.

(** The replacement of one character by [py_encode_basestring_ascii]:
    the short escapes, [\u00xx] for what is not printable ASCII. *)
Definition escape_char (c : ascii) : string :=
  let n := N_of_ascii c in
  match n with
  | 34%N => "\" +:+ String c EmptyString
  | 92%N => "\\"
  | 8%N => "\b"
  | 12%N => "\f"
  | 10%N => "\n"
  | 13%N => "\r"
  | 9%N => "\t"
  | _ =>
      if ((32 <=? n) && (n <=? 126))%N then String c EmptyString
      else "\u00" +:+ String (hex_digit (n / 16)) (String (hex_digit (n mod 16)) EmptyString)
  end.

Fixpoint escape_chars (s : string) : string :=
  match s with
  | EmptyString => EmptyString
  | String c s' => escape_char c +:+ escape_chars s'
  end.

Definition quote : ascii := ascii_of_N 34.

Definition encode_str (s : string) : string :=
  String quote (escape_chars s +:+ String quote EmptyString).

(** [", ".join(parts)]. *)
Fixpoint join_comma (parts : list string) : string :=
  match parts with
  | [] => EmptyString
  | [x] => x
  | x :: rest => x +:+ ", " +:+ join_comma rest
  end.

(** What is left of [s] after the prefix [p], if [s] starts with [p]. *)
Fixpoint after_prefix (p s : string) : option string :=
  match p, s with
  | EmptyString, _ => Some s
  | String a p', String b s' => if Ascii.eqb a b then after_prefix p' s' else None
  | String _ _, EmptyString => None
  end.

Fixpoint skip_ws (s : string) : string :=
  match s with
  | String c s' => if is_ws c then skip_ws s' else s
  | EmptyString => s
  end.

(** The longest prefix of digits, and the rest. *)
Fixpoint scan_digits (s : string) : string * string :=
  match s with
  | String c s' =>
      if is_digit c then let '(ds, r) := scan_digits s' in (String c ds, r)
      else (EmptyString, s)
  | EmptyString => (EmptyString, s)
  end.

(** Group 1 of [NUMBER_RE]: an optional minus sign, then either a
    single 0 or a digit from 1 to 9 followed by any number of digits. *)
Definition match_integer (s : string) : option (string * string) :=
  let unsigned (u : string) : option (string * string) :=
    match u with
    | String c u' =>
        if Ascii.eqb c "0" then Some ("0", u')
        else if is_digit c then let '(ds, r) := scan_digits u' in Some (String c ds, r)
        else None
    | EmptyString => None
    end in
  match s with
  | String c s' =>
      if Ascii.eqb c "-" then
        match unsigned s' with
        | Some (ds, r) => Some (String c ds, r)
        | None => None
        end
      else unsigned s
  | EmptyString => None
  end.

(** Group 2 of [NUMBER_RE]: a dot and at least one digit; the empty
    lexeme when the group is absent. *)
Definition match_frac (s : string) : string * string :=
  match s with
  | String c s' =>
      if Ascii.eqb c "." then
        match scan_digits s' with
        | (String d ds, r) => (String c (String d ds), r)
        | (EmptyString, _) => (EmptyString, s)
        end
      else (EmptyString, s)
  | EmptyString => (EmptyString, s)
  end.

(** Group 3 of [NUMBER_RE]: e or E, an optional sign, at least one
    digit; the empty lexeme when the group is absent. *)
Definition match_exp (s : string) : string * string :=
  match s with
  | String c s' =>
      if Ascii.eqb c "e" || Ascii.eqb c "E" then
        let '(sign, s'') :=
          match s' with
          | String g t => if Ascii.eqb g "-" || Ascii.eqb g "+" then (String g EmptyString, t) else (EmptyString, s')
          | EmptyString => (EmptyString, s')
          end in
        match scan_digits s'' with
        | (String d ds, r) => (String c (sign +:+ String d ds), r)
        | (EmptyString, _) => (EmptyString, s)
        end
      else (EmptyString, s)
  | EmptyString => (EmptyString, s)
  end.

(** [int(lexeme)] for a lexeme of group 1. *)
Definition int_of_lexeme (lexeme : string) : Z :=
  match NilZero.int_of_string lexeme with
  | Some d => Z.of_int d
  | None => 0
  end.

(** The result of a scanner: a value and the rest of the text, or the
    exception that ends the decoding. *)
Inductive scanned (A : Type) : Type :=
| Scanned (a : A) (rest : string)
| ScanError (e : exn).
Arguments Scanned {A} a rest.
Arguments ScanError {A} e.

(** [scanstring], from behind the opening quote, [strict=True]: a
    control character is an error, so is an unknown escape and the end
    of the text. *)
Fixpoint scanstring (s : string) : scanned string :=
  let cons (c : ascii) (r : scanned string) : scanned string :=
    match r with
    | Scanned t rest => Scanned (String c t) rest
    | ScanError e => ScanError e
    end in
  match s with
  | EmptyString => ScanError JSONDecodeError
  | String c s' =>
      let n := N_of_ascii c in
      if (n =? 34)%N then Scanned EmptyString s'
      else if (n =? 92)%N then
        match s' with
        | EmptyString => ScanError JSONDecodeError
        | String e s'' =>
            match N_of_ascii e with
            | 34%N | 92%N | 47%N => cons e (scanstring s'')
            | 98%N => cons (ascii_of_N 8) (scanstring s'')
            | 102%N => cons (ascii_of_N 12) (scanstring s'')
            | 110%N => cons (ascii_of_N 10) (scanstring s'')
            | 114%N => cons (ascii_of_N 13) (scanstring s'')
            | 116%N => cons (ascii_of_N 9) (scanstring s'')
            | 117%N =>
                match s'' with
                | String h1 (String h2 (String h3 (String h4 s3))) =>
                    match hex_value h1, hex_value h2, hex_value h3, hex_value h4 with
                    | Some a, Some b, Some c', Some d =>
                        let code := (((a * 16 + b) * 16 + c') * 16 + d)%N in
                        if (code <? 256)%N then cons (ascii_of_N code) (scanstring s3)
                        else ScanError NotModelled
                    | _, _, _, _ => ScanError JSONDecodeError
                    end
                | _ => ScanError JSONDecodeError
                end
            | _ => ScanError JSONDecodeError
            end
        end
      else if (n <? 32)%N then ScanError JSONDecodeError
      else cons c (scanstring s')
  end.

(** ** Encoder and decoder *)

Section Json.
(** [float_repr] is the text [json.dumps] writes for a float
    ([float.__repr__], and NaN, Infinity, -Infinity); [float_of_string]
    is [float(lexeme)]. *)
Context {F : Type}.
Variable float_repr : F -> string.
Variable float_of_string : string -> F.

(** [json.dumps(v)]: separators [", "] and [": "], [ensure_ascii]. *)
Fixpoint json_dumps (v : json F) : string :=
  match v with
  | JNull => "null"
  | JBool true => "true"
  | JBool false => "false"
  | JInt n => str_int n
  | JFloat f => float_repr f
  | JStr s => encode_str s
  | JList l => "[" +:+ join_comma (map json_dumps l) +:+ "]"
  | JDict d =>
      "{" +:+ join_comma
                (map (fun kv => encode_str (fst kv) +:+ ": " +:+ json_dumps (snd kv)) d)
          +:+ "}"
  end.

(** A number at the head of [s]: [NUMBER_RE], then [int] or [float]. *)
Definition scan_number (s : string) : option (json F * string) :=
  match match_integer s with
  | None => None
  | Some (integer, r1) =>
      let '(frac, r2) := match_frac r1 in
      let '(exp, r3) := match_exp r2 in
      match frac, exp with
      | EmptyString, EmptyString => Some (JInt (int_of_lexeme integer), r3)
      | _, _ => Some (JFloat (float_of_string (integer +:+ frac +:+ exp)), r3)
      end
  end.

(** The three constants the decoder accepts besides JSON proper. *)
Definition scan_constant (s : string) : option (json F * string) :=
  match after_prefix "NaN" s with
  | Some r => Some (JFloat (float_of_string "NaN"), r)
  | None =>
      match after_prefix "Infinity" s with
      | Some r => Some (JFloat (float_of_string "Infinity"), r)
      | None =>
          match after_prefix "-Infinity" s with
          | Some r => Some (JFloat (float_of_string "-Infinity"), r)
          | None => None
          end
      end
  end.

(** The branches of [scan_once] that do not nest: [null], [true],
    [false], a number, one of the three constants. *)
Definition scan_atom (s : string) : scanned (json F) :=
  match after_prefix "null" s, after_prefix "true" s, after_prefix "false" s with
  | Some r, _, _ => Scanned JNull r
  | _, Some r, _ => Scanned (JBool true) r
  | _, _, Some r => Scanned (JBool false) r
  | None, None, None =>
      match scan_number s with
      | Some (v, r) => Scanned v r
      | None =>
          match scan_constant s with
          | Some (v, r) => Scanned v r
          | None => ScanError JSONDecodeError
          end
      end
  end.

(** [scan_once], [JSONObject] and [JSONArray].  [object_members] starts behind
    the opening quote of a key, [array_elements] at a value; [acc] holds what
    was read so far.  A call takes one unit of [fuel], and two calls in
    a row consume at least one character, so twice the length of the
    text is enough fuel.  The recursion limit of the interpreter, which
    very deep nestings run into, is left out. *)
Fixpoint scan_once (fuel : nat) (s : string) : scanned (json F) :=
  match fuel with
  | O => ScanError OutOfFuel
  | S fuel' =>
      match s with
      | EmptyString => ScanError JSONDecodeError
      | String c s' =>
          let n := N_of_ascii c in
          if (n =? 34)%N then
            match scanstring s' with
            | Scanned t r => Scanned (JStr t) r
            | ScanError e => ScanError e
            end
          else if (n =? 123)%N then
            match skip_ws s' with
            | String c1 r =>
                if (N_of_ascii c1 =? 125)%N then Scanned (JDict []) r
                else if (N_of_ascii c1 =? 34)%N then object_members fuel' [] r
                else ScanError JSONDecodeError
            | EmptyString => ScanError JSONDecodeError
            end
          else if (n =? 91)%N then
            match skip_ws s' with
            | String c1 r =>
                if (N_of_ascii c1 =? 93)%N then Scanned (JList []) r
                else array_elements fuel' [] (String c1 r)
            | EmptyString => array_elements fuel' [] EmptyString
            end
          else scan_atom s
      end
  end
with object_members (fuel : nat) (acc : list (string * json F)) (s : string)
  : scanned (json F) :=
  match fuel with
  | O => ScanError OutOfFuel
  | S fuel' =>
      match scanstring s with
      | ScanError e => ScanError e
      | Scanned key r1 =>
          match skip_ws r1 with
          | String c2 r2 =>
              if (N_of_ascii c2 =? 58)%N then
                match scan_once fuel' (skip_ws r2) with
                | ScanError e => ScanError e
                | Scanned value r3 =>
                    let acc' := acc ++ [(key, value)] in
                    match skip_ws r3 with
                    | String c4 r4 =>
                        if (N_of_ascii c4 =? 125)%N then Scanned (JDict (py_dict acc')) r4
                        else if (N_of_ascii c4 =? 44)%N then
                          match skip_ws r4 with
                          | String c5 r5 =>
                              if (N_of_ascii c5 =? 34)%N then object_members fuel' acc' r5
                              else ScanError JSONDecodeError
                          | EmptyString => ScanError JSONDecodeError
                          end
                        else ScanError JSONDecodeError
                    | EmptyString => ScanError JSONDecodeError
                    end
                end
              else ScanError JSONDecodeError
          | EmptyString => ScanError JSONDecodeError
          end
      end
  end
with array_elements (fuel : nat) (acc : list (json F)) (s : string)
  : scanned (json F) :=
  match fuel with
  | O => ScanError OutOfFuel
  | S fuel' =>
      match scan_once fuel' s with
      | ScanError e => ScanError e
      | Scanned value r1 =>
          let acc' := acc ++ [value] in
          match skip_ws r1 with
          | String c2 r2 =>
              if (N_of_ascii c2 =? 93)%N then Scanned (JList acc') r2
              else if (N_of_ascii c2 =? 44)%N then array_elements fuel' acc' (skip_ws r2)
              else ScanError JSONDecodeError
          | EmptyString => ScanError JSONDecodeError
          end
      end
  end.

(** [JSONDecoder.decode]: leading whitespace, one value, trailing
    whitespace, and nothing else ("Extra data"). *)
Definition JSONDecoder_decode (s : string) : outcome (json F) :=
  match scan_once (S (2 * String.length s)) (skip_ws s) with
  | ScanError e => Raised e
  | Scanned v r =>
      match skip_ws r with
      | EmptyString => Returned v
      | String _ _ => Raised JSONDecodeError
      end
  end.

(** [json.loads(x)]: anything but a [str] is a [TypeError].  The limit
    that [int] puts on the digits of a literal is left out, as is the
    recursion limit; [within_decoder_limits] below names the values
    that meet neither. *)
Definition json_loads (x : json F) : outcome (json F) :=
  match x with
  | JStr s => JSONDecoder_decode s
  | _ => Raised TypeError
  end.
End Json.

(** What a scanner may answer on the text [s]: a value and a strictly
    shorter rest, or an exception other than the lack of fuel. *)
Definition progress {A : Type} (s : string) (res : scanned A) : Prop :=
  match res with
  | Scanned _ r => (String.length r < String.length s)%nat
  | ScanError e => e <> OutOfFuel
  end.

(** ** Records of the persistence layer *)

(** [DocumentSource]: the handlers only tell [FILE] from the rest. *)
Inductive DocumentSource : Type :=
| FILE
| OtherSource (value : string).

Definition DocumentSource_eqb (a b : DocumentSource) : bool :=
  match a, b with
  | FILE, FILE => true
  | OtherSource x, OtherSource y => String.eqb x y
  | _, _ => false
  end.

Record Connector (F : Type) : Type := mkConnector {
  source : DocumentSource;
  connector_specific_config : gmap string (json F)
}.
Arguments mkConnector {F} _ _.
Arguments source {F} _.
Arguments connector_specific_config {F} _.

Record ConnectorCredentialPair (F : Type) : Type := mkCCPair {
  connector : Connector F
}.
Arguments mkCCPair {F} _.
Arguments connector {F} _.

Record ConnectorCredentialPairIdentifier : Type := mkIdentifier {
  connector_id : Z;
  credential_id : Z
}.

Record User : Type := mkUser {
  email : string;
  is_active : bool
}.

Record UserByEmail : Type := mkUserByEmail {
  user_email : string
}.

Abbreviation target_email := user_email.

(** ** Calls into the collaborators *)

Section Calls.
(** [F] is Python's [float], [LLM] the client object that
    [get_default_llm] returns. *)
Context {F LLM : Type}.

(** One constructor per call that leaves the handler, indexed by the
    type of what the call returns.  The database session is the single
    one of the request and stays implicit. *)
Inductive call : Type -> Type :=
| get_connector_credential_pair (connector_id credential_id : Z)
    : call (option (ConnectorCredentialPair F))
| cancel_indexing_attempts_for_connector
    (connector_id : Z) (include_secondary_index : bool) : call unit
| check_deletion_attempt_is_allowed (cc_pair : ConnectorCredentialPair F)
    : call (option string)
| apply_async (connector_id credential_id : Z) : call unit
| get_default_file_store : call unit
| delete_file (file_name : json F) : call unit
| get_dynamic_config_store : call unit
| kv_load (key : string) : call (json F)
| kv_store (key : string) (val : json F) : call unit
| datetime_now : call datetime
| get_default_llm (timeout : Z) : call LLM
| test_llm (llm : LLM) : call (option string)
| get_user_by_email (email : string) : call (option User)
| logger_warning (msg : string) : call unit
| db_add (u : User) : call unit
| db_commit : call unit.

(** A handler body: it returns, raises, or makes a call and goes on
    with the call's outcome. *)
Inductive prog (R : Type) : Type :=
| Ret (r : R)
| Raise (e : exn)
| Call {X : Type} (c : call X) (k : outcome X -> prog R).
Arguments Ret {R} r.
Arguments Raise {R} e.
Arguments Call {R X} c k.

Fixpoint bind {A B : Type} (p : prog A) (f : A -> prog B) : prog B :=
  match p with
  | Ret a => f a
  | Raise e => Raise e
  | Call c k => Call c (fun o => bind (k o) f)
  end.

(** A pure expression that may raise. *)
Definition lift {A : Type} (o : outcome A) : prog A :=
  match o with
  | Returned a => Ret a
  | Raised e => Raise e
  end.

(** A call whose exception, if any, propagates. *)
Definition do {X : Type} (c : call X) : prog X := Call c lift.

(** [try: body except ...: handler]: [handler e] is [None] when no
    [except] clause matches [e]. *)
Fixpoint try_except {A : Type} (body : prog A)
    (handler : exn -> option (prog A)) : prog A :=
  match body with
  | Ret a => Ret a
  | Raise e => match handler e with Some h => h | None => Raise e end
  | Call c k => Call c (fun o => try_except (k o) handler)
  end.

(** [for x in xs: body x]. *)
Fixpoint for_each {A : Type} (xs : list A) (body : A -> prog unit)
  : prog unit :=
  match xs with
  | [] => Ret tt
  | x :: xs' => bind (body x) (fun _ => for_each xs' body)
  end.

(** ** Running a handler *)

(** A call together with its outcome. *)
Inductive event : Type :=
| Event {X : Type} (c : call X) (o : outcome X).

(** The state a request runs against: the key-value config store and
    the state [E] of every other collaborator. *)
Record World (E : Type) : Type := mkWorld {
  kv : gmap string (json F);
  ext : E
}.
Arguments mkWorld {E} _ _.
Arguments kv {E} _.
Arguments ext {E} _.

(** How the collaborators other than the config store answer. *)
Definition oracle (E : Type) : Type :=
  forall X : Type, call X -> E -> outcome X * E.

(** Modelled from the spec: the key-value config store of
    danswer.dynamic_configs, whose code is not part of the sources at
    hand: [load(key) -> value | NotFound], [store(key, value)].  A
    missing key raises [ConfigNotFoundError]; [store] overwrites. *)
Definition respond {E : Type} (env : oracle E) {X : Type} (c : call X)
  : World E -> outcome X * World E :=
  match c in call X return World E -> outcome X * World E with
  | kv_load key => fun w =>
      match kv w !! key with
      | Some v => (Returned v, w)
      | None => (Raised ConfigNotFoundError, w)
      end
  | kv_store key val => fun w =>
      (Returned tt, mkWorld (<[key := val]> (kv w)) (ext w))
  | c' => fun w =>
      let '(o, e') := env _ c' (ext w) in (o, mkWorld (kv w) e')
  end.

Fixpoint run {E R : Type} (env : oracle E) (p : prog R) (w : World E)
  : list event * outcome R * World E :=
  match p with
  | Ret r => ([], Returned r, w)
  | Raise e => ([], Raised e, w)
  | Call c k =>
      let '(o, w') := respond env c w in
      let '(t, r, w'') := run env (k o) w' in
      (Event c o :: t, r, w'')
  end.
End Calls.

Arguments call : clear implicits.
Arguments prog : clear implicits.
Arguments event : clear implicits.
Arguments World : clear implicits.
Arguments oracle : clear implicits.
Arguments Ret {F LLM R} r.
Arguments Raise {F LLM R} e.
Arguments Call {F LLM R X} c k.
Arguments mkWorld {F E} _ _.
Arguments kv {F E} _.
Arguments ext {F E} _.

#[global] Instance prog_ret {F LLM} : MRet (prog F LLM) := fun _ a => Ret a.
#[global] Instance prog_bind {F LLM} : MBind (prog F LLM) :=
  fun _ _ f p => bind p f.

(** ** The handlers *)

(** Where a block of statements leaves off: at a [return], or at its
    end. *)
Inductive flow (R : Type) : Type :=
| Return_ (r : R)
| Next.
Arguments Return_ {R} r.
Arguments Next {R}.

Definition GEN_AI_KEY_CHECK_TIME : string := "genai_api_key_last_check_time".

(** Modelled from the spec: the keys of the token-budget settings.  They
    are constants of danswer.configs.constants, which is not part of the
    sources at hand; the settings mapping is described with these three
    names. *)
Definition ENABLE_TOKEN_BUDGET : string := "enable_token_budget".
Definition TOKEN_BUDGET : string := "token_budget".
Definition TOKEN_BUDGET_TIME_PERIOD : string := "token_budget_time_period".

Section Handlers.
Context {F LLM : Type}.

(** [datetime.timestamp], [datetime.fromtimestamp(_, tz=utc)] on a value
    that the config store holds (it raises on what is not a number and
    on a number out of range), and the two conversions of the [json]
    module. *)
Variable timestamp : datetime -> F.
Variable fromtimestamp : json F -> outcome datetime.
Variable float_repr : F -> string.
Variable float_of_string : string -> F.

(** Constants of danswer.configs that the sources at hand only import. *)
Variable GENERATIVE_MODEL_ACCESS_CHECK_FREQ : Z.
Variable TOKEN_BUDGET_GLOBALLY_ENABLED : bool.
Variable TOKEN_BUDGET_SETTINGS : string.

#[local] Abbreviation prog := (prog F LLM).

(** GET /manage/admin/genai-api-key/validate *)
Definition validate_existing_genai_api_key : prog unit :=
  do get_dynamic_config_store ;;
  curr_time ← do datetime_now ;
  checked ← try_except
    (v ← do (kv_load GEN_AI_KEY_CHECK_TIME) ;
     last_check ← lift (fromtimestamp v) ;
     check_freq_sec ← lift (timedelta_seconds GENERATIVE_MODEL_ACCESS_CHECK_FREQ) ;
     if curr_time - last_check <? check_freq_sec then Ret (Return_ tt) else Ret Next)
    (fun e => match e with
              | ConfigNotFoundError => Some (Ret Next)
              | _ => None
              end) ;
  match checked with
  | Return_ r => Ret r
  | Next =>
      llm ← try_except (do (get_default_llm 10))
        (fun e => if isinstance_ValueError e
                  then Some (Raise (HTTPException 404 "LLM not setup"))
                  else None) ;
      error ← do (test_llm llm) ;
      if truthy error then Raise (HTTPException 400 (text_of error))
      else
        curr_time ← do datetime_now ;
        do (kv_store GEN_AI_KEY_CHECK_TIME (JFloat (timestamp curr_time)))
  end.

(** The detail of the 404 of a deletion attempt. *)
Definition pair_not_found_detail (connector_id credential_id : Z) : string :=
  "Connector with ID '" +:+ str_int connector_id +:+ "' and credential ID '"
  +:+ str_int credential_id +:+ "' does not exist. Has it already been deleted?".

(** POST /manage/admin/deletion-attempt *)
Definition create_deletion_attempt_for_connector_id
    (connector_credential_pair_identifier : ConnectorCredentialPairIdentifier)
  : prog unit :=
  let connector_id := connector_id connector_credential_pair_identifier in
  let credential_id := credential_id connector_credential_pair_identifier in
  cc_pair ← do (get_connector_credential_pair connector_id credential_id) ;
  match cc_pair with
  | None => Raise (HTTPException 404 (pair_not_found_detail connector_id credential_id))
  | Some cc_pair =>
      do (cancel_indexing_attempts_for_connector connector_id true) ;;
      deletion_attempt_disallowed_reason ← do (check_deletion_attempt_is_allowed cc_pair) ;
      if truthy deletion_attempt_disallowed_reason
      then Raise (HTTPException 400 (text_of deletion_attempt_disallowed_reason))
      else
        do (apply_async connector_id credential_id) ;;
        if DocumentSource_eqb (source (connector cc_pair)) FILE then
          do get_default_file_store ;;
          match connector_specific_config (connector cc_pair) !! "file_locations" with
          | None => Raise (KeyError "file_locations")
          | Some locations =>
              match py_iter locations with
              | None => Raise TypeError
              | Some file_names =>
                  for_each file_names (fun file_name => do (delete_file file_name))
              end
          end
        else Ret tt
  end.

(** GET /manage/admin/token-budget-settings *)
Definition get_token_budget_settings : prog (json F) :=
  if negb TOKEN_BUDGET_GLOBALLY_ENABLED
  then Raise (HTTPException 400 "Token budget is not enabled in the application.")
  else
    try_except
      (do get_dynamic_config_store ;;
       settings_json ← do (kv_load TOKEN_BUDGET_SETTINGS) ;
       settings ← lift (json_loads float_of_string settings_json) ;
       Ret settings)
      (fun e => match e with
                | ConfigNotFoundError =>
                    Some (Raise (HTTPException 404 "Token budget settings not found."))
                | _ => None
                end).

(** PUT /manage/admin/token-budget-settings.  The declarations
    [Body(..., ge=0)] and [Body(..., ge=1)] make the framework refuse
    the request before the body runs. *)
Definition update_token_budget_settings
    (enable_token_budget : bool) (token_budget token_budget_time_period : Z)
  : prog (list (string * string)) :=
  if negb ((0 <=? token_budget) && (1 <=? token_budget_time_period))
  then Raise (PyException "RequestValidationError")
  else
    let settings_json :=
      json_dumps float_repr
        (JDict (py_dict [(ENABLE_TOKEN_BUDGET, JBool enable_token_budget);
                         (TOKEN_BUDGET, JInt token_budget);
                         (TOKEN_BUDGET_TIME_PERIOD, JInt token_budget_time_period)])) in
    do get_dynamic_config_store ;;
    do (kv_store TOKEN_BUDGET_SETTINGS (JStr settings_json)) ;;
    Ret (py_dict [("message", "Token budget settings updated successfully.")]).

(** PATCH /manage/admin/deactivate-user.  The parameter [user_email]
    hides the field of the same name, which is read as [target_email]. *)
Definition deactivate_user (user_email : UserByEmail) (current_user : User)
  : prog unit :=
  if String.eqb (email current_user) (target_email user_email)
  then Raise (HTTPException 400 "You cannot deactivate yourself")
  else
    user_to_deactivate ← do (get_user_by_email (target_email user_email)) ;
    match user_to_deactivate with
    | None => Raise (HTTPException 404 "User not found")
    | Some user_to_deactivate =>
        (if negb (is_active user_to_deactivate)
         then do (logger_warning (email user_to_deactivate +:+ " is already deactivated"))
         else Ret tt) ;;
        let user_to_deactivate := mkUser (email user_to_deactivate) false in
        do (db_add user_to_deactivate) ;;
        do db_commit
    end.
End Handlers.

(** ** Observing a run *)

(** Which collaborator a call addresses. *)
Inductive call_kind : Type :=
| KPairLookup | KCancelIndexing | KAdmission | KSubmitJob
| KFileStore | KDeleteFile
| KConfigStore | KLoad | KStore
| KNow | KLlmSetup | KLlmTest
| KUserLookup | KLog | KDbAdd | KDbCommit.

Definition kind_of {F LLM X : Type} (c : call F LLM X) : call_kind :=
  match c with
  | get_connector_credential_pair _ _ => KPairLookup
  | cancel_indexing_attempts_for_connector _ _ => KCancelIndexing
  | check_deletion_attempt_is_allowed _ => KAdmission
  | apply_async _ _ => KSubmitJob
  | get_default_file_store => KFileStore
  | delete_file _ => KDeleteFile
  | get_dynamic_config_store => KConfigStore
  | kv_load _ => KLoad
  | kv_store _ _ => KStore
  | datetime_now => KNow
  | get_default_llm _ => KLlmSetup
  | test_llm _ => KLlmTest
  | get_user_by_email _ => KUserLookup
  | logger_warning _ => KLog
  | db_add _ => KDbAdd
  | db_commit => KDbCommit
  end.

Definition event_kind {F LLM : Type} (ev : event F LLM) : call_kind :=
  match ev with
  | Event c _ => kind_of c
  end.

Definition call_kind_eqb (a b : call_kind) : bool :=
  match a, b with
  | KPairLookup, KPairLookup | KCancelIndexing, KCancelIndexing
  | KAdmission, KAdmission | KSubmitJob, KSubmitJob
  | KFileStore, KFileStore | KDeleteFile, KDeleteFile
  | KConfigStore, KConfigStore | KLoad, KLoad | KStore, KStore
  | KNow, KNow | KLlmSetup, KLlmSetup | KLlmTest, KLlmTest
  | KUserLookup, KUserLookup | KLog, KLog | KDbAdd, KDbAdd
  | KDbCommit, KDbCommit => true
  | _, _ => false
  end.

(** How many calls of a trace address the collaborator [k]. *)
Definition count_kind {F LLM : Type} (k : call_kind) (t : list (event F LLM)) : nat :=
  length (filter (fun ev => call_kind_eqb (event_kind ev) k = true) t).

(** The exception of an event whose call raised. *)
Definition event_raised {F LLM : Type} (ev : event F LLM) : option exn :=
  match ev with
  | Event _ (Raised e) => Some e
  | Event _ (Returned _) => None
  end.

(** The client a validation call was made on, and what it answered. *)
Definition llm_tested {F LLM : Type} (ev : event F LLM)
  : option (LLM * option (option string)) :=
  match ev with
  | Event c o =>
      match c in call _ _ X return outcome X -> option (LLM * option (option string)) with
      | test_llm llm => fun o =>
          Some (llm, match o with Returned r => Some r | Raised _ => None end)
      | _ => fun _ => None
      end o
  end.

(** The trace of [n] file deletions that all went through. *)
Definition deletions {F LLM : Type} (file_names : list (json F))
  : list (event F LLM) :=
  map (fun file_name => Event (delete_file file_name) (Returned tt)) file_names.

(** ** A test double

    Floats are the microsecond counts they denote, the LLM client is a
    token, and the collaborators answer from a small record. *)
Record double : Type := mkDouble {
  d_now : datetime;
  d_pair : option (ConnectorCredentialPair Z);
  d_reason : option string;
  d_llm_setup : bool;
  d_llm_error : option string;
  d_bad_file : option string;
  d_user : option User
}.

Definition double_env : oracle Z unit double :=
  fun X c =>
    match c in call _ _ X return double -> outcome X * double with
    | get_connector_credential_pair _ _ => fun d => (Returned (d_pair d), d)
    | check_deletion_attempt_is_allowed _ => fun d => (Returned (d_reason d), d)
    | delete_file (JStr name) => fun d =>
        match d_bad_file d with
        | Some bad => if String.eqb bad name
                      then (Raised (PyException "OSError"), d)
                      else (Returned tt, d)
        | None => (Returned tt, d)
        end
    | datetime_now => fun d =>
        (Returned (d_now d),
         mkDouble (d_now d + 1000000) (d_pair d) (d_reason d) (d_llm_setup d)
                  (d_llm_error d) (d_bad_file d) (d_user d))
    | get_default_llm _ => fun d =>
        if d_llm_setup d then (Returned tt, d) else (Raised ValueError, d)
    | test_llm _ => fun d => (Returned (d_llm_error d), d)
    | get_user_by_email _ => fun d => (Returned (d_user d), d)
    | cancel_indexing_attempts_for_connector _ _ => fun d => (Returned tt, d)
    | apply_async _ _ => fun d => (Returned tt, d)
    | get_default_file_store => fun d => (Returned tt, d)
    | delete_file _ => fun d => (Returned tt, d)
    | get_dynamic_config_store => fun d => (Returned tt, d)
    | kv_load _ => fun d => (Raised ConfigNotFoundError, d)
    | kv_store _ _ => fun d => (Returned tt, d)
    | logger_warning _ => fun d => (Returned tt, d)
    | db_add _ => fun d => (Returned tt, d)
    | db_commit => fun d => (Returned tt, d)
    end.

(** A file connector with two uploaded files. *)
Definition file_pair : ConnectorCredentialPair Z :=
  mkCCPair (mkConnector FILE
    {[ "file_locations" := JList [JStr "a.pdf"; JStr "b.pdf"] ]}).

Definition quiet : double :=
  mkDouble 1700000000000000 (Some file_pair) None true None None None.

Definition double_float_repr (f : Z) : string := str_int f.
Definition double_float_of_string (s : string) : Z := int_of_lexeme s.

(** ** The token-budget settings and their JSON text *)

(** The mapping that [update_token_budget_settings] serialises. *)
Definition token_budget_settings {F : Type} (e : bool) (b p : Z) : json F :=
  JDict [(ENABLE_TOKEN_BUDGET, JBool e); (TOKEN_BUDGET, JInt b);
         (TOKEN_BUDGET_TIME_PERIOD, JInt p)].

Definition bool_text (e : bool) : string := if e then "true" else "false".

(** The text of a member from behind the opening quote of its key, and
    the text that leads to the next member. *)
Definition member_text (key rest : string) : string :=
  key +:+ String quote (": " +:+ rest).
Definition next_member (rest : string) : string :=
  ", " +:+ String quote rest.

(** The text of the settings, cut where the decoder stops. *)
Definition settings_text (e : bool) (b p : Z) : string :=
  let t3 := str_int p +:+ "}" in
  let t2 := str_int b +:+ next_member (member_text TOKEN_BUDGET_TIME_PERIOD t3) in
  let t1 := bool_text e +:+ next_member (member_text TOKEN_BUDGET t2) in
  String "{" (String quote (member_text ENABLE_TOKEN_BUDGET t1)).

(** What may follow a number for the number to end there. *)
Definition ends_number (rest : string) : Prop :=
  match rest with
  | String c _ =>
      is_digit c = false /\ c <> "."%char /\ c <> "e"%char /\ c <> "E"%char
  | EmptyString => True
  end.

(** ** Doubles for the scenarios *)

Definition demo_world (d : double) : World Z double := mkWorld ∅ d.

(** No pair is configured. *)
Definition no_pair : double :=
  mkDouble 1700000000000000 None None true None None None.

(** The policy refuses. *)
Definition denying : double :=
  mkDouble 1700000000000000 (Some file_pair) (Some "deletion already in progress")
           true None None None.

(** The file store fails on the second file. *)
Definition broken_store : double :=
  mkDouble 1700000000000000 (Some file_pair) None true None (Some "b.pdf") None.

(** No LLM is set up; the LLM rejects the key. *)
Definition no_llm : double :=
  mkDouble 1700000000000000 None None false None None None.
Definition bad_key : double :=
  mkDouble 1700000000000000 None None true (Some "invalid api key") None None.

(** The conversions of the doubles: a float is the microsecond count it
    denotes. *)
Definition double_timestamp (t : datetime) : Z := t.
Definition double_fromtimestamp (v : json Z) : outcome datetime :=
  match v with
  | JFloat f => Returned f
  | JInt n => Returned (n * 1000000)
  | _ => Raised TypeError
  end.

(** The gate of the doubles; the cooldown is a day. *)
Definition double_gate : prog Z unit unit :=
  validate_existing_genai_api_key double_timestamp double_fromtimestamp 86400.

(** A config store with a check one hour before [quiet]'s clock. *)
Definition checked_world : World Z double :=
  mkWorld {[ GEN_AI_KEY_CHECK_TIME := JFloat 1699996400000000 ]} quiet.

(** The first check against an empty config store. *)
Definition first_check : list (event Z unit) * outcome unit * World Z double :=
  Eval vm_compute in run double_env double_gate (demo_world quiet).

(** ** The other endpoints of the file *)

Section MoreUserHandlers.
Context {F LLM : Type}.

(** PATCH /manage/admin/activate-user *)
Definition activate_user (user_email : UserByEmail) : prog F LLM unit :=
  user_to_activate ← do (get_user_by_email (target_email user_email)) ;
  match user_to_activate with
  | None => Raise (HTTPException 404 "User not found")
  | Some user_to_activate =>
      (if is_active user_to_activate
       then do (logger_warning (email user_to_activate +:+ " is already activated"))
       else Ret tt) ;;
      let user_to_activate := mkUser (email user_to_activate) true in
      do (db_add user_to_activate) ;;
      do db_commit
  end.
End MoreUserHandlers.

(** The user that a trace adds to the session, at the call [db_add]. *)
Definition added_user {F LLM : Type} (ev : event F LLM) : option User :=
  match ev with
  | Event c _ =>
      match c with
      | db_add u => Some u
      | _ => None
      end
  end.

(** Rows and messages of the document endpoints. *)
Record DbDocument : Type := mkDbDocument {
  doc_id : string;
  doc_semantic_id : string;
  doc_link : option string;
  doc_boost : Z;
  doc_hidden : bool
}.

Record BoostDoc : Type := mkBoostDoc {
  document_id : string;
  semantic_id : string;
  link : string;
  boost : Z;
  hidden : bool
}.

Record BoostUpdateRequest : Type := mkBoostUpdateRequest {
  boost_document_id : string;
  new_boost : Z
}.

Record HiddenUpdateRequest : Type := mkHiddenUpdateRequest {
  hidden_document_id : string;
  new_hidden : bool
}.

(** [x or EmptyString] for an [Optional[str]]. *)
Definition or_empty (x : option string) : string :=
  if truthy x then text_of x else EmptyString.

Section ManageCalls.
(** [DI] is the document index object that
    [get_default_document_index] returns. *)
Context {DI : Type}.

(** The calls of the document and invitation endpoints. *)
Inductive manage_call : Type -> Type :=
| fetch_docs_ranked_by_boost (ascending : bool) (limit : Z)
    : manage_call (list DbDocument)
| get_both_index_names : manage_call (string * option string)
| get_default_document_index
    (primary_index_name : string) (secondary_index_name : option string)
    : manage_call DI
| update_document_boost (document_id : string) (boost : Z) (document_index : DI)
    : manage_call unit
| update_document_hidden (document_id : string) (hidden : bool) (document_index : DI)
    : manage_call unit
| get_invited_users : manage_call (list string)
| write_invited_users (emails : list string) : manage_call Z.

(** A handler body over these calls, built as [prog] is. *)
Inductive manage_prog (R : Type) : Type :=
| MDone (r : R)
| MFail (e : exn)
| MAsk {X : Type} (c : manage_call X) (k : outcome X -> manage_prog R).
Arguments MDone {R} r.
Arguments MFail {R} e.
Arguments MAsk {R X} c k.

Fixpoint manage_bind {A B : Type} (p : manage_prog A) (f : A -> manage_prog B)
  : manage_prog B :=
  match p with
  | MDone a => f a
  | MFail e => MFail e
  | MAsk c k => MAsk c (fun o => manage_bind (k o) f)
  end.

Definition manage_lift {A : Type} (o : outcome A) : manage_prog A :=
  match o with
  | Returned a => MDone a
  | Raised e => MFail e
  end.

Definition ask {X : Type} (c : manage_call X) : manage_prog X := MAsk c manage_lift.

Fixpoint manage_try {A : Type} (body : manage_prog A)
    (handler : exn -> option (manage_prog A)) : manage_prog A :=
  match body with
  | MDone a => MDone a
  | MFail e => match handler e with Some h => h | None => MFail e end
  | MAsk c k => MAsk c (fun o => manage_try (k o) handler)
  end.

Inductive manage_event : Type :=
| Asked {X : Type} (c : manage_call X) (o : outcome X).

Definition manage_oracle (E : Type) : Type :=
  forall X : Type, manage_call X -> E -> outcome X * E.

Fixpoint manage_run {E R : Type} (env : manage_oracle E) (p : manage_prog R) (e : E)
  : list manage_event * outcome R * E :=
  match p with
  | MDone r => ([], Returned r, e)
  | MFail x => ([], Raised x, e)
  | MAsk c k =>
      let '(o, e') := env _ c e in
      let '(t, r, e'') := manage_run env (k o) e' in
      (Asked c o :: t, r, e'')
  end.
End ManageCalls.

Arguments manage_call : clear implicits.
Arguments manage_prog : clear implicits.
Arguments manage_event : clear implicits.
Arguments manage_oracle : clear implicits.
Arguments MDone {DI R} r.
Arguments MFail {DI R} e.
Arguments MAsk {DI R X} c k.

#[global] Instance manage_prog_ret {DI} : MRet (manage_prog DI) := fun _ a => MDone a.
#[global] Instance manage_prog_bind {DI} : MBind (manage_prog DI) :=
  fun _ _ f p => manage_bind p f.

Section ManageHandlers.
Context {DI : Type}.

(** [str(e)] for a caught exception, and [list(set(a) | set(b))], whose
    order is the interpreter's. *)
Variable exn_str : exn -> string.
Variable list_of_union : list string -> list string -> list string.

(** GET /manage/admin/doc-boosts *)
Definition get_most_boosted_docs (ascending : bool) (limit : Z)
  : manage_prog DI (list BoostDoc) :=
  boost_docs ← ask (fetch_docs_ranked_by_boost ascending limit) ;
  MDone (map (fun doc =>
               mkBoostDoc (doc_id doc) (doc_semantic_id doc) (or_empty (doc_link doc))
                          (doc_boost doc) (doc_hidden doc))
            boost_docs).

(** POST /manage/admin/doc-boosts *)
Definition document_boost_update (boost_update : BoostUpdateRequest)
  : manage_prog DI unit :=
  names ← ask get_both_index_names ;
  let '(curr_ind_name, sec_ind_name) := names in
  document_index ← ask (get_default_document_index curr_ind_name sec_ind_name) ;
  manage_try
    (ask (update_document_boost (boost_document_id boost_update)
            (new_boost boost_update) document_index))
    (fun e => if isinstance_ValueError e
              then Some (MFail (HTTPException 400 (exn_str e)))
              else None).

(** POST /manage/admin/doc-hidden *)
Definition document_hidden_update (hidden_update : HiddenUpdateRequest)
  : manage_prog DI unit :=
  names ← ask get_both_index_names ;
  let '(curr_ind_name, sec_ind_name) := names in
  document_index ← ask (get_default_document_index curr_ind_name sec_ind_name) ;
  manage_try
    (ask (update_document_hidden (hidden_document_id hidden_update)
            (new_hidden hidden_update) document_index))
    (fun e => if isinstance_ValueError e
              then Some (MFail (HTTPException 400 (exn_str e)))
              else None).

(** PUT /manage/admin/users *)
Definition bulk_invite_users (emails : list string) : manage_prog DI Z :=
  invited ← ask get_invited_users ;
  let all_emails := list_of_union emails invited in
  ask (write_invited_users all_emails).

(** PATCH /manage/admin/remove-invited-user *)
Definition remove_invited_user (user_email : UserByEmail) : manage_prog DI Z :=
  user_emails ← ask get_invited_users ;
  let remaining_users :=
    List.filter (fun user => negb (String.eqb user (target_email user_email)))
                user_emails in
  ask (write_invited_users remaining_users).
End ManageHandlers.

(** The exceptions the decoder of the embedding ends with. *)
Definition decode_error (e : exn) : Prop :=
  e = JSONDecodeError \/ e = NotModelled \/ e = OutOfFuel.

(** ** The reach of the decoder

    [json_loads] is [json.loads] of CPython 3.11 on the values that stay
    clear of what the embedding leaves out: a [\u] escape for a code
    point above U+00FF, on which the decoder of the embedding answers
    [NotModelled]; an integer literal of more than 4300 digits, which
    [int] refuses with a [ValueError]; and containers nested so deep
    that the scanner runs into the recursion limit ([RecursionError]). *)

(** [sys.int_info.default_max_str_digits]. *)
Definition default_max_str_digits : nat := 4300.

(** A depth of nesting that the default recursion limit of 1000 leaves
    room for under the frames of a request. *)
Definition max_nesting : nat := 100.

(** The length of the longest run of digits in [s], where [seen] digits
    come right before [s]; no integer literal of [s] has more digits. *)
Fixpoint longest_digit_run (seen : nat) (s : string) : nat :=
  match s with
  | EmptyString => seen
  | String c s' =>
      if is_digit c then longest_digit_run (S seen) s'
      else Nat.max seen (longest_digit_run 0 s')
  end.

(** How many [[] and [{] the text has; its containers are nested no
    deeper. *)
Fixpoint count_openers (s : string) : nat :=
  match s with
  | EmptyString => 0
  | String c s' =>
      if (N_of_ascii c =? 91)%N || (N_of_ascii c =? 123)%N
      then S (count_openers s') else count_openers s'
  end.

(** The values whose decoding meets neither limit: what is no [str], and
    a text of short digit runs and few containers. *)
Definition within_decoder_limits {F : Type} (v : json F) : bool :=
  match v with
  | JStr text =>
      (longest_digit_run 0 text <=? default_max_str_digits)%nat
      && (count_openers text <=? max_nesting)%nat
  | _ => true
  end.

(** ** More doubles *)

(** A [FILE] connector without [file_locations], one whose entry is a
    number, and a connector of another source. *)
Definition unlisted_pair : ConnectorCredentialPair Z :=
  mkCCPair (mkConnector FILE ∅).
Definition odd_pair : ConnectorCredentialPair Z :=
  mkCCPair (mkConnector FILE {[ "file_locations" := JInt 3 ]}).
Definition web_pair : ConnectorCredentialPair Z :=
  mkCCPair (mkConnector (OtherSource "web")
    {[ "file_locations" := JList [JStr "a.pdf"] ]}).

Definition with_pair (p : ConnectorCredentialPair Z) : double :=
  mkDouble 1700000000000000 (Some p) None true None None None.

Definition with_user (u : User) : double :=
  mkDouble 1700000000000000 None None true None None (Some u).

Definition bob : User := mkUser "bob@example.com" true.
Definition idle_bob : User := mkUser "bob@example.com" false.
Definition admin : User := mkUser "admin@example.com" true.

(** A double whose LLM calls raise [x], and one without config store. *)
Definition llm_raising (x : exn) : oracle Z unit double :=
  fun X c =>
    match c in call _ _ X return double -> outcome X * double with
    | get_default_llm _ => fun d =>
        if d_llm_setup d then (Returned tt, d) else (Raised x, d)
    | test_llm _ => fun d => (Raised x, d)
    | c' => double_env _ c'
    end.

Definition storeless : oracle Z unit double :=
  fun X c =>
    match c in call _ _ X return double -> outcome X * double with
    | get_dynamic_config_store => fun d => (Raised ConfigNotFoundError, d)
    | c' => double_env _ c'
    end.

(** Config stores: a check of more than a day ago, a record that is no
    number, settings that are no JSON text. *)
Definition stale_world : World Z double :=
  mkWorld {[ GEN_AI_KEY_CHECK_TIME := JFloat 1699900000000000 ]} quiet.
Definition unreadable_world : World Z double :=
  mkWorld {[ GEN_AI_KEY_CHECK_TIME := JStr "yesterday" ]} quiet.
Definition garbled_world : World Z double :=
  mkWorld {[ "token_budget_settings" := JStr "[1, 2" ]} quiet.

(** Settings that are JSON text, of another shape than the settings. *)
Definition listed_world : World Z double :=
  mkWorld {[ "token_budget_settings" := JStr "[1, 2]" ]} quiet.

(** The gate with a check frequency beyond what [timedelta] holds. *)
Definition endless_gate : prog Z unit unit :=
  validate_existing_genai_api_key double_timestamp double_fromtimestamp
    (10 ^ 15).

(** A double for the document and invitation endpoints: the rows, the
    invited emails, and what an update raises. *)
Record manage_double : Type := mkManageDouble {
  m_docs : list DbDocument;
  m_invited : list string;
  m_update_error : option exn
}.

Definition manage_double_env : manage_oracle unit manage_double :=
  fun X c =>
    match c in manage_call _ X return manage_double -> outcome X * manage_double with
    | fetch_docs_ranked_by_boost _ _ => fun d => (Returned (m_docs d), d)
    | get_both_index_names => fun d => (Returned ("primary", None), d)
    | get_default_document_index _ _ => fun d => (Returned tt, d)
    | update_document_boost _ _ _ | update_document_hidden _ _ _ => fun d =>
        match m_update_error d with
        | Some x => (Raised x, d)
        | None => (Returned tt, d)
        end
    | get_invited_users => fun d => (Returned (m_invited d), d)
    | write_invited_users emails => fun d =>
        (Returned (Z.of_nat (length emails)),
         mkManageDouble (m_docs d) emails (m_update_error d))
    end.

Definition double_exn_str (e : exn) : string := "boost out of range".
Definition double_list_of_union (a b : list string) : list string :=
  remove_dups (a ++ b).

Definition office : manage_double :=
  mkManageDouble
    [mkDbDocument "doc-1" "First" (Some "https://example.com/1") 3 false;
     mkDbDocument "doc-2" "Second" None 1 true]
    ["ann@example.com"; "bob@example.com"; "cy@example.com"]
    None.

Definition strict_office : manage_double :=
  mkManageDouble [] [] (Some ValueError).

(** * Properties *)

Section RunFacts.
Context {F LLM E : Type}.
Variable env : oracle F LLM E.

(** Running [p] and then [f]: the traces follow each other, and an
    exception of [p] ends the run. *)
Lemma run_bind {A B : Type} (p : prog F LLM A) (f : A -> prog F LLM B) w :
  run env (bind p f) w =
  let '(t1, r1, w1) := run env p w in
  match r1 with
  | Returned a => let '(t2, r2, w2) := run env (f a) w1 in (t1 ++ t2, r2, w2)
  | Raised e => (t1, Raised e, w1)
  end.
Proof.
  revert w. induction p as [a | e | X c k IH]; intros w; simpl.
  - destruct (run env (f a) w) as [[t2 r2] w2]. reflexivity.
  - reflexivity.
  - destruct (respond env c w) as [o w1]. rewrite IH.
    destruct (run env (k o) w1) as [[t1 r1] w1'].
    destruct r1 as [a | e]; [ | reflexivity].
    destruct (run env (f a) w1') as [[t2 r2] w2]. reflexivity.
Qed.

(** The loop over the file names: either every deletion went through,
    or the run ends at the first one that raised. *)
Lemma run_delete_loop (file_names : list (json F)) w t r w' :
  run env (for_each file_names (fun file_name => do (delete_file file_name))) w
    = (t, r, w') ->
  kv w' = kv w /\
  ((r = Returned tt /\ t = deletions file_names) \/
   (exists done file_name rest e,
      file_names = done ++ file_name :: rest /\
      r = Raised e /\
      t = deletions done ++ [Event (delete_file file_name) (Raised e)])).
Proof.
  revert w t r w'. induction file_names as [ | f fs IH]; intros w t r w' H.
  - simpl in H. inversion H; subst. split; [reflexivity | left; split; reflexivity].
  - simpl in H.
    destruct (env unit (delete_file f) (ext w)) as [o e1] eqn:He.
    destruct o as [[] | e]; simpl in H.
    + destruct (run env (for_each fs _) _) as [[t1 r1] w1] eqn:Hrun.
      inversion H; subst; clear H.
      apply IH in Hrun. destruct Hrun as [Hkv [[-> ->] | (dn & fn & rest & e & -> & -> & ->)]].
      * split; [exact Hkv | left; split; reflexivity].
      * split; [exact Hkv | right]. exists (f :: dn), fn, rest, e.
        split; [reflexivity | split; reflexivity].
    + inversion H; subst; clear H. split; [reflexivity | right].
      exists [], f, fs, e. split; [reflexivity | split; reflexivity].
Qed.
End RunFacts.

(** ** The deletion-attempt handler *)

Section Deletion.
Context {F LLM E : Type}.
Variable env : oracle F LLM E.

Lemma count_kind_cons k (ev : event F LLM) t :
  count_kind k (ev :: t) =
  ((if call_kind_eqb (event_kind ev) k then 1 else 0) + count_kind k t)%nat.
Proof.
  unfold count_kind. rewrite filter_cons.
  destruct (call_kind_eqb (event_kind ev) k).
  - rewrite decide_True by reflexivity. reflexivity.
  - rewrite decide_False by discriminate. reflexivity.
Qed.

Lemma count_kind_app k (t1 t2 : list (event F LLM)) :
  count_kind k (t1 ++ t2) = (count_kind k t1 + count_kind k t2)%nat.
Proof. unfold count_kind. rewrite filter_app, length_app. reflexivity. Qed.

Lemma count_kind_deletions k (l : list (json F)) :
  count_kind k (deletions (LLM:=LLM) l) =
  if call_kind_eqb KDeleteFile k then length l else 0%nat.
Proof.
  unfold count_kind, deletions. induction l as [ | x l IH].
  - destruct k; reflexivity.
  - simpl map. rewrite filter_cons. simpl event_kind.
    destruct (call_kind_eqb KDeleteFile k) eqn:Hk.
    + rewrite decide_True by reflexivity. simpl. rewrite IH. reflexivity.
    + rewrite decide_False by discriminate. exact IH.
Qed.

Lemma deletions_lookup (l : list (json F)) j (ev : event F LLM) :
  deletions l !! j = Some ev -> event_raised ev = None.
Proof.
  revert j. induction l as [ | x l IH]; intros [ | j] H; simpl in H; try discriminate.
  - inversion H; subst. reflexivity.
  - eapply IH, H.
Qed.

Lemma deletions_length (l : list (json F)) :
  length (deletions (LLM:=LLM) l) = length l.
Proof. unfold deletions. apply length_map. Qed.

Ltac count_calls :=
  rewrite ?count_kind_cons, ?count_kind_app, ?count_kind_cons, ?count_kind_deletions;
  simpl; try reflexivity; try lia.

(* No event of the kind that [Hk] asks for sits in a trace that is
   written out. *)
Ltac absent Hi Hk :=
  match type of Hi with
  | [] !! _ = Some _ => rewrite lookup_nil in Hi; discriminate Hi
  | (_ :: _) !! ?i = Some _ =>
      destruct i; simpl in Hi;
      [ inversion Hi; subst; discriminate Hk | absent Hi Hk ]
  end.

(** C1.  When the pair exists, the second call of the handler is the
    cancellation of the connector's indexing attempts with
    [include_secondary_index=True]; a call to the admission policy sits
    at a later place of the trace, and only behind a cancellation that
    returned. *)
Theorem deletion_cancels_before_admission cid crid w pair e1 t r w' :
  env _ (get_connector_credential_pair cid crid) (ext w) = (Returned (Some pair), e1) ->
  run env (create_deletion_attempt_for_connector_id (mkIdentifier cid crid)) w
    = (t, r, w') ->
  (exists o rest,
     t = Event (get_connector_credential_pair cid crid) (Returned (Some pair))
         :: Event (cancel_indexing_attempts_for_connector cid true) o :: rest) /\
  (forall i ev, t !! i = Some ev -> event_kind ev = KAdmission ->
     (2 <= i)%nat /\
     t !! 1%nat
       = Some (Event (cancel_indexing_attempts_for_connector cid true) (Returned tt))).
Proof.
  intros H1 H. unfold create_deletion_attempt_for_connector_id in H. simpl in H.
  rewrite H1 in H. simpl in H.
  destruct (env _ (cancel_indexing_attempts_for_connector cid true) e1) as [o2 e2] eqn:H2.
  destruct (run env _ _) as [[t' r'] w''] eqn:Hrest in H.
  inversion H; subst; clear H.
  split; [eexists _, _; reflexivity | ].
  intros i ev Hi Hk.
  destruct i as [ | [ | i]]; simpl in Hi.
  - inversion Hi; subst. discriminate Hk.
  - inversion Hi; subst. discriminate Hk.
  - split; [lia | ]. simpl. destruct o2 as [[] | e]; [reflexivity | ].
    simpl in Hrest. inversion Hrest; subst. rewrite lookup_nil in Hi. discriminate.
Qed.

(** C2.  When the pair is absent, the handler raises the 404 whose
    detail asks whether the pair has already been deleted, and the
    lookup is the only call it makes: the admission policy, the job
    queue and the file store are not reached. *)
Theorem deletion_of_absent_pair_is_not_found cid crid w e1 :
  env _ (get_connector_credential_pair cid crid) (ext w) = (Returned None, e1) ->
  run env (create_deletion_attempt_for_connector_id (mkIdentifier cid crid)) w =
    ([Event (get_connector_credential_pair cid crid) (Returned None)],
     Raised (HTTPException 404
       ("Connector with ID '" +:+ str_int cid +:+ "' and credential ID '"
        +:+ str_int crid +:+ "' does not exist. Has it already been deleted?")),
     mkWorld (kv w) e1).
Proof.
  intros H. unfold create_deletion_attempt_for_connector_id. simpl. rewrite H. simpl.
  reflexivity.
Qed.

(** C3.  When the admission policy answers with a reason, the handler
    raises the 400 that carries this reason as it is.  The trace ends
    with the policy's answer: no job is submitted, no file is deleted,
    and the state is the one the cancellation and the policy left. *)
Theorem deletion_denied_by_policy cid crid w pair reason e1 e2 e3 :
  env _ (get_connector_credential_pair cid crid) (ext w) = (Returned (Some pair), e1) ->
  env _ (cancel_indexing_attempts_for_connector cid true) e1 = (Returned tt, e2) ->
  env _ (check_deletion_attempt_is_allowed pair) e2 = (Returned (Some reason), e3) ->
  reason <> EmptyString ->
  run env (create_deletion_attempt_for_connector_id (mkIdentifier cid crid)) w =
    ([Event (get_connector_credential_pair cid crid) (Returned (Some pair));
      Event (cancel_indexing_attempts_for_connector cid true) (Returned tt);
      Event (check_deletion_attempt_is_allowed pair) (Returned (Some reason))],
     Raised (HTTPException 400 reason),
     mkWorld (kv w) e3).
Proof.
  intros H1 H2 H3 Hr. unfold create_deletion_attempt_for_connector_id. simpl.
  rewrite H1. simpl. rewrite H2. simpl. rewrite H3. simpl.
  destruct reason; [congruence | reflexivity].
Qed.

(** C4.  When the admission policy allows, the trace holds one job
    submission, at its fourth place, with the ids of the request.  If the
    connector's source is [FILE] and the handler returns, the rest of the
    trace is the access to the file store and one deletion per entry of
    [file_locations], in their order. *)
Theorem deletion_allowed_submits_once_and_deletes_files
    cid crid w pair reason e1 e2 e3 t r w' :
  env _ (get_connector_credential_pair cid crid) (ext w) = (Returned (Some pair), e1) ->
  env _ (cancel_indexing_attempts_for_connector cid true) e1 = (Returned tt, e2) ->
  env _ (check_deletion_attempt_is_allowed pair) e2 = (Returned reason, e3) ->
  truthy reason = false ->
  run env (create_deletion_attempt_for_connector_id (mkIdentifier cid crid)) w
    = (t, r, w') ->
  count_kind KSubmitJob t = 1%nat /\
  (exists o, t !! 3%nat = Some (Event (apply_async cid crid) o)) /\
  (forall locations file_names,
     source (connector pair) = FILE ->
     connector_specific_config (connector pair) !! "file_locations" = Some locations ->
     py_iter locations = Some file_names ->
     r = Returned tt ->
     t = [Event (get_connector_credential_pair cid crid) (Returned (Some pair));
          Event (cancel_indexing_attempts_for_connector cid true) (Returned tt);
          Event (check_deletion_attempt_is_allowed pair) (Returned reason);
          Event (apply_async cid crid) (Returned tt);
          Event get_default_file_store (Returned tt)] ++ deletions file_names /\
     count_kind KDeleteFile t = length file_names).
Proof.
  intros H1 H2 H3 Hr H. unfold create_deletion_attempt_for_connector_id in H. simpl in H.
  rewrite H1 in H. simpl in H. rewrite H2 in H. simpl in H. rewrite H3 in H. simpl in H.
  rewrite Hr in H. simpl in H.
  destruct (env _ (apply_async cid crid) e3) as [o4 e4] eqn:H4.
  destruct o4 as [[] | x]; simpl in H.
  2:{ inversion H; subst. split; [reflexivity | split; [eexists; reflexivity | ]].
      intros; discriminate. }
  destruct (source (connector pair)) eqn:Hs; simpl in H.
  2:{ inversion H; subst. split; [reflexivity | split; [eexists; reflexivity | ]].
      intros; discriminate. }
  destruct (env _ get_default_file_store e4) as [o5 e5] eqn:H5.
  destruct o5 as [[] | x]; simpl in H.
  2:{ inversion H; subst. split; [reflexivity | split; [eexists; reflexivity | ]].
      intros; discriminate. }
  destruct (connector_specific_config (connector pair) !! "file_locations")
    as [locs | ] eqn:Hl; simpl in H.
  2:{ inversion H; subst. split; [reflexivity | split; [eexists; reflexivity | ]].
      intros; discriminate. }
  destruct (py_iter locs) as [names | ] eqn:Hn; simpl in H.
  2:{ inversion H; subst. split; [reflexivity | split; [eexists; reflexivity | ]].
      intros; discriminate. }
  destruct (run env (for_each names _) _) as [[t1 r1] w1] eqn:Hloop.
  inversion H; subst; clear H.
  apply run_delete_loop in Hloop.
  destruct Hloop as [_ [[-> ->] | (dn & fn & rest & e & -> & -> & ->)]].
  - split; [count_calls | ].
    split; [eexists; reflexivity | ].
    intros locations file_names _ Hl' Hn' _.
    assert (file_names = names) as -> by congruence.
    split; [reflexivity | count_calls].
  - split; [count_calls | ].
    split; [eexists; reflexivity | ]. intros; discriminate.
Qed.

(** C5.  When a file deletion raises, the handler raises that very
    exception.  The failing call is the last one of the trace, so
    nothing is done about the job, whose submission sits at the fourth
    place of the trace and is the only one. *)
Theorem file_deletion_failure_propagates cid crid w t r w' i ev e :
  run env (create_deletion_attempt_for_connector_id (mkIdentifier cid crid)) w
    = (t, r, w') ->
  t !! i = Some ev -> event_kind ev = KDeleteFile -> event_raised ev = Some e ->
  r = Raised e /\
  length t = S i /\
  t !! 3%nat = Some (Event (apply_async cid crid) (Returned tt)) /\
  (3 < i)%nat /\
  count_kind KSubmitJob t = 1%nat.
Proof.
  intros H Hi Hk He. unfold create_deletion_attempt_for_connector_id in H. simpl in H.
  destruct (env _ (get_connector_credential_pair cid crid) (ext w)) as [o1 e1].
  destruct o1 as [[pair | ] | x]; simpl in H;
    [ | inversion H; subst; absent Hi Hk ..].
  destruct (env _ (cancel_indexing_attempts_for_connector cid true) e1) as [o2 e2].
  destruct o2 as [[] | x]; simpl in H; [ | inversion H; subst; absent Hi Hk].
  destruct (env _ (check_deletion_attempt_is_allowed pair) e2) as [o3 e3].
  destruct o3 as [reason | x]; simpl in H; [ | inversion H; subst; absent Hi Hk].
  destruct (truthy reason); simpl in H; [inversion H; subst; absent Hi Hk | ].
  destruct (env _ (apply_async cid crid) e3) as [o4 e4].
  destruct o4 as [[] | x]; simpl in H; [ | inversion H; subst; absent Hi Hk].
  destruct (source (connector pair)); simpl in H; [ | inversion H; subst; absent Hi Hk].
  destruct (env _ get_default_file_store e4) as [o5 e5].
  destruct o5 as [[] | x]; simpl in H; [ | inversion H; subst; absent Hi Hk].
  destruct (connector_specific_config (connector pair) !! "file_locations") as [locs | ];
    simpl in H; [ | inversion H; subst; absent Hi Hk].
  destruct (py_iter locs) as [names | ]; simpl in H; [ | inversion H; subst; absent Hi Hk].
  destruct (run env (for_each names _) _) as [[t1 r1] w1] eqn:Hloop.
  inversion H; subst; clear H.
  apply run_delete_loop in Hloop.
  do 5 (destruct i as [ | i]; [simpl in Hi; inversion Hi; subst; discriminate Hk | ]).
  simpl in Hi.
  destruct Hloop as [_ [[-> ->] | (dn & fn & rest & e' & -> & -> & ->)]].
  - apply deletions_lookup in Hi. congruence.
  - apply lookup_app_Some in Hi. destruct Hi as [Hi | [Hlen Hi]].
    + apply deletions_lookup in Hi. congruence.
    + rewrite deletions_length in Hlen, Hi.
      destruct (i - length dn)%nat as [ | n] eqn:Hn; simpl in Hi;
        [ | rewrite lookup_nil in Hi; discriminate].
      inversion Hi; subst ev. simpl in He. inversion He; subst e'.
      split; [reflexivity | ]. split.
      { simpl. rewrite length_app, deletions_length. simpl. lia. }
      split; [reflexivity | ]. split; [lia | count_calls].
Qed.
End Deletion.

(** ** The cooldown gate of the API-key validation *)

Section Cooldown.
Context {F LLM E : Type}.
Variable timestamp : datetime -> F.
Variable fromtimestamp : json F -> outcome datetime.
Variable GENERATIVE_MODEL_ACCESS_CHECK_FREQ : Z.
Variable env : oracle F LLM E.

#[local] Abbreviation gate :=
  (validate_existing_genai_api_key (LLM:=LLM) timestamp fromtimestamp
     GENERATIVE_MODEL_ACCESS_CHECK_FREQ).

(* Every way through the handler: one goal per combination of what
   the collaborators answer and of how the tests come out. *)
Ltac paths H :=
  repeat (simpl in H;
    match type of H with
    | context [env ?X ?c ?e] =>
        let o := fresh "o" in let e' := fresh "e" in let Hc := fresh "Hc" in
        destruct (env X c e) as [o e'] eqn:Hc; destruct o
    | context [kv ?w !! ?k] =>
        let v := fresh "v" in let Hv := fresh "Hv" in
        destruct (kv w !! k) as [v | ] eqn:Hv
    | context [fromtimestamp ?v] =>
        let Hf := fresh "Hf" in
        destruct (fromtimestamp v) as [? | []] eqn:Hf
    | context [timedelta_seconds ?s] =>
        let Hd := fresh "Hd" in destruct (timedelta_seconds s) as [? | []] eqn:Hd
    | context [?a <? ?b] =>
        let Hlt := fresh "Hlt" in destruct (a <? b) eqn:Hlt
    | context [isinstance_ValueError ?x] =>
        let Hx := fresh "Hx" in destruct (isinstance_ValueError x) eqn:Hx
    | context [truthy ?x] =>
        let Hx := fresh "Hx" in destruct (truthy x) eqn:Hx
    end); simpl in H.

Ltac finish :=
  first [ congruence
        | split; [reflexivity | split; reflexivity]
        | match goal with
          | Hx : truthy (Some ?s) = _ |- _ => destruct s; simpl in Hx; simpl; finish
          end ].

(* [Hin] says that an event is in a trace that is written out; [proj]
   tells the event from the others. *)
Ltac member Hin proj :=
  simpl in Hin;
  repeat (destruct Hin as [Hin | Hin];
          [ apply (f_equal proj) in Hin; simpl in Hin;
            first [ discriminate Hin | inversion Hin; subst; finish ] | ]);
  contradiction.

(** Within the cooldown window the gate reads the clock and the record
    and returns. *)
Lemma gate_skips_within_window w e1 now e2 v last_check D :
  env _ get_dynamic_config_store (ext w) = (Returned tt, e1) ->
  env _ datetime_now e1 = (Returned now, e2) ->
  kv w !! GEN_AI_KEY_CHECK_TIME = Some v ->
  fromtimestamp v = Returned last_check ->
  timedelta_seconds GENERATIVE_MODEL_ACCESS_CHECK_FREQ = Returned D ->
  now - last_check < D ->
  run env gate w =
    ([Event get_dynamic_config_store (Returned tt);
      Event datetime_now (Returned now);
      Event (kv_load GEN_AI_KEY_CHECK_TIME) (Returned v)],
     Returned tt, mkWorld (kv w) e2).
Proof.
  intros H1 H2 Hv Hf Hd Hlt. unfold validate_existing_genai_api_key. simpl.
  rewrite H1. simpl. rewrite H2. simpl. rewrite Hv. simpl. rewrite Hf. simpl.
  rewrite Hd. simpl. apply Z.ltb_lt in Hlt. rewrite Hlt. simpl. reflexivity.
Qed.

(** C6.  With the config store at hand and the clock read: if the record
    holds a time [last_check] with [now - last_check < D], the gate
    returns after three calls, none of them to the LLM; if there is no
    record, the [ConfigNotFoundError] of the load is followed by
    [get_default_llm] and, once the client is there, by [test_llm], and
    the gate raises [ConfigNotFoundError] only if one of these later
    calls raised it. *)
Theorem cooldown_skips_within_window_and_validates_without_record w e1 now e2 :
  env _ get_dynamic_config_store (ext w) = (Returned tt, e1) ->
  env _ datetime_now e1 = (Returned now, e2) ->
  (forall v last_check D,
     kv w !! GEN_AI_KEY_CHECK_TIME = Some v ->
     fromtimestamp v = Returned last_check ->
     timedelta_seconds GENERATIVE_MODEL_ACCESS_CHECK_FREQ = Returned D ->
     now - last_check < D ->
     run env gate w =
       ([Event get_dynamic_config_store (Returned tt);
         Event datetime_now (Returned now);
         Event (kv_load GEN_AI_KEY_CHECK_TIME) (Returned v)],
        Returned tt, mkWorld (kv w) e2)) /\
  (kv w !! GEN_AI_KEY_CHECK_TIME = None ->
   exists o rest r w',
     run env gate w =
       (Event get_dynamic_config_store (Returned tt)
        :: Event datetime_now (Returned now)
        :: Event (kv_load GEN_AI_KEY_CHECK_TIME) (Raised ConfigNotFoundError)
        :: Event (get_default_llm 10) o :: rest, r, w') /\
     (forall llm, o = Returned llm ->
        exists o', rest !! 0%nat = Some (Event (test_llm llm) o')) /\
     (r = Raised ConfigNotFoundError ->
      exists ev, In ev (Event (get_default_llm 10) o :: rest) /\
                 event_raised ev = Some ConfigNotFoundError)).
Proof.
  intros H1 H2. split.
  - intros v last_check D.
    apply (gate_skips_within_window w e1 now e2 v last_check D); assumption.
  - intros Hv.
    destruct (run env gate w) as [[t r] w'] eqn:H.
    unfold validate_existing_genai_api_key in H. simpl in H.
    rewrite H1 in H. simpl in H. rewrite H2 in H. simpl in H. rewrite Hv in H.
    paths H; inversion H; subst; clear H; eexists _, _, _, _;
      (split; [reflexivity | ]);
      (split; [ intros llm Hllm; inversion Hllm; subst; eexists; reflexivity | ]);
      intros Hr; try discriminate Hr;
      first [ eexists; split; [left; reflexivity | simpl; congruence]
            | eexists; split; [right; left; reflexivity | simpl; congruence]
            | eexists; split; [right; right; left; reflexivity | simpl; congruence] ].
Qed.

(** C7.  In every run of the gate in which [test_llm] reported no error
    and the clock answered each time it was read, the gate returns, and
    it ends by reading the clock and storing that time under the key,
    whatever was there before.  If the stored float converts back to
    that time, the next run against the same config store, at a time
    less than [D] later, returns after three calls without a call to
    the LLM. *)
Theorem successful_validation_restarts_cooldown w t r w1 llm error :
  run env gate w = (t, r, w1) ->
  In (Event (test_llm llm) (Returned error)) t ->
  truthy error = false ->
  (forall ev, In ev t -> event_kind ev = KNow -> event_raised ev = None) ->
  r = Returned tt /\
  exists now' t0,
    t = t0 ++ [Event datetime_now (Returned now');
               Event (kv_store GEN_AI_KEY_CHECK_TIME (JFloat (timestamp now')))
                     (Returned tt)] /\
    kv w1 = <[GEN_AI_KEY_CHECK_TIME := JFloat (timestamp now')]> (kv w) /\
    forall w2 e1 now2 e2 D,
      kv w2 = kv w1 ->
      env _ get_dynamic_config_store (ext w2) = (Returned tt, e1) ->
      env _ datetime_now e1 = (Returned now2, e2) ->
      fromtimestamp (JFloat (timestamp now')) = Returned now' ->
      timedelta_seconds GENERATIVE_MODEL_ACCESS_CHECK_FREQ = Returned D ->
      now2 - now' < D ->
      run env gate w2 =
        ([Event get_dynamic_config_store (Returned tt);
          Event datetime_now (Returned now2);
          Event (kv_load GEN_AI_KEY_CHECK_TIME) (Returned (JFloat (timestamp now')))],
         Returned tt, mkWorld (kv w2) e2).
Proof.
  intros H Hin Herr Hclock. unfold validate_existing_genai_api_key in H.
  paths H; inversion H; subst; clear H.
  (* the runs without a validation that reported no error *)
  all: simpl in Hin;
    repeat (destruct Hin as [Hin | Hin];
            [ apply (f_equal (@llm_tested F LLM)) in Hin; simpl in Hin;
              first [ discriminate Hin | inversion Hin; subst; clear Hin ] | ]);
    try contradiction; try congruence.
  (* the runs in which the second reading of the clock raised *)
  all: try (match type of Hclock with
            | context [Event datetime_now (Raised ?x)] =>
                assert (Hn : @event_raised F LLM (Event datetime_now (Raised x)) = None)
                  by (apply Hclock;
                      [simpl; repeat (first [left; reflexivity | right]) | reflexivity]);
                discriminate Hn
            end).
  all: (split; [reflexivity | ]);
    eexists _, [_; _; _; _; _]; (split; [reflexivity | ]); (split; [reflexivity | ]);
    intros w2 s1 now2 s2 D Hkv Hs1 Hs2 Hround HD Hwithin;
    repeat match goal with u : unit |- _ => destruct u end;
    eapply (gate_skips_within_window w2 s1 now2 s2 _ _ D);
    [ exact Hs1 | exact Hs2 | rewrite Hkv; simpl; apply lookup_insert_eq
    | exact Hround | congruence | exact Hwithin ].
Qed.

(** C8.  In a run of the gate, a [ValueError] of [get_default_llm] ends
    in the 404 "LLM not setup", and an error text of [test_llm] ends in
    the 400 that carries this text; in both cases the gate stores
    nothing and the config store is as it was. *)
Theorem validation_failures_are_distinguished w t r w' :
  run env gate w = (t, r, w') ->
  (forall e, In (Event (get_default_llm 10) (Raised e)) t ->
     isinstance_ValueError e = true ->
     r = Raised (HTTPException 404 "LLM not setup") /\
     count_kind KStore t = 0%nat /\ kv w' = kv w) /\
  (forall llm error, In (Event (test_llm llm) (Returned (Some error))) t ->
     error <> EmptyString ->
     r = Raised (HTTPException 400 error) /\
     count_kind KStore t = 0%nat /\ kv w' = kv w).
Proof.
  intros H. unfold validate_existing_genai_api_key in H.
  paths H; inversion H; subst; clear H.
  all: split;
    [ intros x Hin Hval;
      member Hin (fun ev : event F LLM => (event_kind ev, event_raised ev))
    | intros llm error Hin Hne; member Hin (@llm_tested F LLM) ].
Qed.
End Cooldown.

(** ** Deactivating a user *)

Section Users.
Context {F LLM E : Type}.
Variable env : oracle F LLM E.

(** C9.  When the admin's email is the target's, the handler raises the
    400 "You cannot deactivate yourself" without a single call, so the
    state is untouched; and a run that makes any call is one where the
    two emails differ. *)
Theorem admin_cannot_deactivate_self (target : UserByEmail) (current_user : User) w :
  (email current_user = user_email target ->
   run env (deactivate_user target current_user) w =
     ([], Raised (HTTPException 400 "You cannot deactivate yourself"), w)) /\
  (forall t r w',
     run env (deactivate_user target current_user) w = (t, r, w') ->
     t <> [] -> email current_user <> user_email target).
Proof.
  split.
  - intros H. unfold deactivate_user. rewrite H, String.eqb_refl. reflexivity.
  - intros t r w' H Ht Heq. unfold deactivate_user in H.
    rewrite Heq, String.eqb_refl in H. simpl in H. inversion H; subst.
    apply Ht. reflexivity.
Qed.
End Users.

(** ** The decoder has enough fuel *)

(** The scanners hand back a rest that is no longer than their text. *)
Lemma skip_ws_length s : (String.length (skip_ws s) <= String.length s)%nat.
Proof.
  induction s as [ | c s IH]; simpl; [lia | ].
  destruct (is_ws c); simpl; lia.
Qed.

Lemma scan_digits_length s ds r :
  scan_digits s = (ds, r) -> (String.length r <= String.length s)%nat.
Proof.
  revert ds r. induction s as [ | c s IH]; simpl; intros ds r H.
  - inversion H; subst. simpl. lia.
  - destruct (is_digit c).
    + destruct (scan_digits s) as [ds' r'] eqn:Hs. inversion H; subst.
      specialize (IH _ _ eq_refl). lia.
    + inversion H; subst. simpl. lia.
Qed.

Lemma after_prefix_length p s r :
  after_prefix p s = Some r -> String.length s = (String.length p + String.length r)%nat.
Proof.
  revert s r. induction p as [ | a p IH]; intros s r H; simpl in H.
  - inversion H; subst. reflexivity.
  - destruct s as [ | b s]; [discriminate | ].
    destruct (Ascii.eqb a b); [ | discriminate].
    apply IH in H. simpl. lia.
Qed.

Lemma match_integer_length s l r :
  match_integer s = Some (l, r) -> (String.length r < String.length s)%nat.
Proof.
  unfold match_integer. intros H.
  assert (Hu : forall u l' r',
    match u with
    | String c u' =>
        if Ascii.eqb c "0" then Some ("0", u')
        else if is_digit c then let '(ds, r) := scan_digits u' in Some (String c ds, r)
        else None
    | EmptyString => None
    end = Some (l', r') -> (String.length r' < String.length u)%nat).
  { intros [ | c u'] l' r' Hu; [discriminate | ].
    destruct (Ascii.eqb c "0"); [inversion Hu; subst; simpl; lia | ].
    destruct (is_digit c); [ | discriminate].
    destruct (scan_digits u') as [ds r0] eqn:Hs. inversion Hu; subst.
    apply scan_digits_length in Hs. simpl. lia. }
  destruct s as [ | c s']; [discriminate | ].
  destruct (Ascii.eqb c "-").
  - match type of H with match ?x with _ => _ end = _ => destruct x as [[ds r0] | ] eqn:Hx end;
      [ | discriminate].
    inversion H; subst. apply Hu in Hx. simpl. lia.
  - apply (Hu (String c s')) in H. exact H.
Qed.

Lemma match_frac_length s l r :
  match_frac s = (l, r) -> (String.length r <= String.length s)%nat.
Proof.
  unfold match_frac. intros H. destruct s as [ | c s']; [inversion H; subst; simpl; lia | ].
  destruct (Ascii.eqb c "."); [ | inversion H; subst; simpl; lia].
  destruct (scan_digits s') as [[ | d ds] r0] eqn:Hs; inversion H; subst; simpl; [lia | ].
  apply scan_digits_length in Hs. lia.
Qed.

Lemma match_exp_length s l r :
  match_exp s = (l, r) -> (String.length r <= String.length s)%nat.
Proof.
  unfold match_exp. intros H. destruct s as [ | c s']; [inversion H; subst; simpl; lia | ].
  destruct (Ascii.eqb c "e" || Ascii.eqb c "E"); [ | inversion H; subst; simpl; lia].
  match type of H with
  | (let '(_, _) := ?x in _) = _ => destruct x as [sign s''] eqn:Hsign
  end.
  assert (String.length s'' <= String.length s')%nat.
  { destruct s' as [ | g t]; [inversion Hsign; subst; simpl; lia | ].
    destruct (Ascii.eqb g "-" || Ascii.eqb g "+"); inversion Hsign; subst; simpl; lia. }
  destruct (scan_digits s'') as [[ | d ds] r0] eqn:Hs; inversion H; subst; simpl; [lia | ].
  apply scan_digits_length in Hs. lia.
Qed.

(** [scanstring] takes no fuel and consumes the closing quote. *)
Lemma scanstring_result s :
  match scanstring s with
  | Scanned _ r => (String.length r < String.length s)%nat
  | ScanError e => e <> OutOfFuel
  end.
Proof.
  assert (H : forall n s, (String.length s <= n)%nat ->
    match scanstring s with
    | Scanned _ r => (String.length r < String.length s)%nat
    | ScanError e => e <> OutOfFuel
    end); [ | apply (H (String.length s)); lia].
  clear s. induction n as [ | n IH]; intros s Hn.
  - destruct s; [simpl; discriminate | simpl in Hn; lia].
  - destruct s as [ | c s']; [simpl; discriminate | ].
    simpl in Hn.
    assert (Hcons : forall (x : ascii) (t : string),
      (String.length t <= n)%nat -> (String.length t < String.length (String c s'))%nat ->
      match
        match scanstring t with
        | Scanned u rest => Scanned (String x u) rest
        | ScanError e => ScanError e
        end
      with
      | Scanned _ r => (String.length r < String.length (String c s'))%nat
      | ScanError e => e <> OutOfFuel
      end).
    { intros x t Ht Hlt. specialize (IH t Ht). destruct (scanstring t); [lia | exact IH]. }
    simpl scanstring.
    destruct (N_of_ascii c =? 34)%N; [simpl; lia | ].
    destruct (N_of_ascii c =? 92)%N.
    + destruct s' as [ | e s'']; [discriminate | ].
      destruct (N_of_ascii e) as [ | p]; [discriminate | ].
      simpl in Hn.
      repeat (destruct p as [p | p | ]; try discriminate;
              try (apply Hcons; simpl; lia)).
      destruct s'' as [ | h1 [ | h2 [ | h3 [ | h4 s3]]]]; try discriminate.
      destruct (hex_value h1), (hex_value h2), (hex_value h3), (hex_value h4);
        try discriminate.
      match goal with |- context [if ?b then _ else _] => destruct b end;
        [ | discriminate].
      apply Hcons; simpl in *; lia.
    + destruct (N_of_ascii c <? 32)%N; [discriminate | ].
      apply Hcons; simpl; lia.
Qed.

Lemma skip_ws_cons s c r :
  skip_ws s = String c r -> (S (String.length r) <= String.length s)%nat.
Proof.
  intros H. pose proof (skip_ws_length s) as Hl. rewrite H in Hl. exact Hl.
Qed.

Section Fuel.
Context {F : Type}.
Variable float_of_string : string -> F.

Lemma scan_number_length s v r :
  scan_number float_of_string s = Some (v, r) -> (String.length r < String.length s)%nat.
Proof.
  unfold scan_number. intros H.
  destruct (match_integer s) as [[integer r1] | ] eqn:Hi; [ | discriminate].
  destruct (match_frac r1) as [frac r2] eqn:Hf.
  destruct (match_exp r2) as [exp r3] eqn:He.
  apply match_integer_length in Hi. apply match_frac_length in Hf.
  apply match_exp_length in He.
  destruct frac, exp; inversion H; subst; lia.
Qed.

Lemma scan_constant_length s v r :
  scan_constant float_of_string s = Some (v, r) -> (String.length r < String.length s)%nat.
Proof.
  unfold scan_constant. intros H.
  destruct (after_prefix "NaN" s) eqn:H1;
    [apply after_prefix_length in H1; inversion H; subst; simpl in H1; lia | ].
  destruct (after_prefix "Infinity" s) eqn:H2;
    [apply after_prefix_length in H2; inversion H; subst; simpl in H2; lia | ].
  destruct (after_prefix "-Infinity" s) eqn:H3;
    [apply after_prefix_length in H3; inversion H; subst; simpl in H3; lia | ].
  discriminate.
Qed.

Lemma scan_atom_progress s : progress s (scan_atom float_of_string s).
Proof.
  unfold scan_atom.
  destruct (after_prefix "null" s) eqn:H1;
    [apply after_prefix_length in H1; simpl in *; lia | ].
  destruct (after_prefix "true" s) eqn:H2;
    [apply after_prefix_length in H2; simpl in *; lia | ].
  destruct (after_prefix "false" s) eqn:H3;
    [apply after_prefix_length in H3; simpl in *; lia | ].
  destruct (scan_number float_of_string s) as [[v r] | ] eqn:H4;
    [apply scan_number_length in H4; exact H4 | ].
  destruct (scan_constant float_of_string s) as [[v r] | ] eqn:H5;
    [apply scan_constant_length in H5; exact H5 | ].
  discriminate.
Qed.

#[local] Arguments scan_atom : simpl never.
#[local] Arguments skip_ws : simpl never.
#[local] Arguments scanstring : simpl never.
#[local] Arguments Nat.mul : simpl never.

(** With more fuel than twice the length of the text, the three
    scanners make progress. *)
Lemma scan_has_fuel fuel :
  (forall s, (2 * String.length s < fuel)%nat ->
     progress s (scan_once float_of_string fuel s)) /\
  (forall acc s, (2 * String.length s + 1 < fuel)%nat ->
     progress s (object_members float_of_string fuel acc s)) /\
  (forall acc s, (2 * String.length s + 1 < fuel)%nat ->
     progress s (array_elements float_of_string fuel acc s)).
Proof.
  induction fuel as [ | f (IHonce & IHmembers & IHelements)].
  - repeat split; intros; lia.
  - split; [ | split].
    + intros [ | c s'] Hf; [discriminate | ]. simpl.
      destruct (N_of_ascii c =? 34)%N.
      { pose proof (scanstring_result s') as Hs.
        destruct (scanstring s'); simpl in *; [lia | exact Hs]. }
      destruct (N_of_ascii c =? 123)%N.
      { destruct (skip_ws s') as [ | c1 r] eqn:Hws; [discriminate | ].
        apply skip_ws_cons in Hws.
        destruct (N_of_ascii c1 =? 125)%N; [simpl; lia | ].
        destruct (N_of_ascii c1 =? 34)%N; [ | discriminate].
        specialize (IHmembers [] r). simpl in Hf.
        destruct (object_members float_of_string f [] r); simpl in *;
          [assert (String.length rest < String.length r)%nat by (apply IHmembers; lia); lia
          | apply IHmembers; lia]. }
      destruct (N_of_ascii c =? 91)%N; [ | apply scan_atom_progress].
      destruct (skip_ws s') as [ | c1 r] eqn:Hws.
      { specialize (IHelements [] EmptyString). simpl in Hf, IHelements.
        destruct (array_elements float_of_string f [] EmptyString); simpl in *;
          [assert (String.length rest < 0)%nat by (apply IHelements; lia); lia
          | apply IHelements; lia]. }
      apply skip_ws_cons in Hws.
      destruct (N_of_ascii c1 =? 93)%N; [simpl; lia | ].
      specialize (IHelements [] (String c1 r)). simpl in Hf, IHelements.
      destruct (array_elements float_of_string f [] (String c1 r)); simpl in *;
        [assert (String.length rest < S (String.length r))%nat by (apply IHelements; lia); lia
        | apply IHelements; lia].
    + intros acc s Hf. simpl.
      pose proof (scanstring_result s) as Hs.
      destruct (scanstring s) as [key r1 | e]; [ | exact Hs]. simpl in Hs.
      destruct (skip_ws r1) as [ | c2 r2] eqn:Hw1; [discriminate | ].
      apply skip_ws_cons in Hw1.
      destruct (N_of_ascii c2 =? 58)%N; [ | discriminate].
      pose proof (skip_ws_length r2) as Hw2.
      specialize (IHonce (skip_ws r2)).
      destruct (scan_once float_of_string f (skip_ws r2)) as [value r3 | e];
        [ | apply IHonce; lia].
      assert (Hr3 : (String.length r3 < String.length (skip_ws r2))%nat)
        by (apply IHonce; lia).
      destruct (skip_ws r3) as [ | c4 r4] eqn:Hw3; [discriminate | ].
      apply skip_ws_cons in Hw3.
      destruct (N_of_ascii c4 =? 125)%N; [simpl; lia | ].
      destruct (N_of_ascii c4 =? 44)%N; [ | discriminate].
      destruct (skip_ws r4) as [ | c5 r5] eqn:Hw4; [discriminate | ].
      apply skip_ws_cons in Hw4.
      destruct (N_of_ascii c5 =? 34)%N; [ | discriminate].
      specialize (IHmembers (acc ++ [(key, value)]) r5).
      destruct (object_members float_of_string f (acc ++ [(key, value)]) r5); simpl in *;
        [assert (String.length rest < String.length r5)%nat by (apply IHmembers; lia); lia
        | apply IHmembers; lia].
    + intros acc s Hf. simpl.
      specialize (IHonce s).
      destruct (scan_once float_of_string f s) as [value r1 | e];
        [ | apply IHonce; lia].
      assert (Hr1 : (String.length r1 < String.length s)%nat) by (apply IHonce; lia).
      destruct (skip_ws r1) as [ | c2 r2] eqn:Hw1; [discriminate | ].
      apply skip_ws_cons in Hw1.
      destruct (N_of_ascii c2 =? 93)%N; [simpl; lia | ].
      destruct (N_of_ascii c2 =? 44)%N; [ | discriminate].
      pose proof (skip_ws_length r2) as Hw2.
      specialize (IHelements (acc ++ [value]) (skip_ws r2)).
      destruct (array_elements float_of_string f (acc ++ [value]) (skip_ws r2)); simpl in *;
        [assert (String.length rest < String.length (skip_ws r2))%nat
           by (apply IHelements; lia); lia
        | apply IHelements; lia].
Qed.

(** The decoder never stops for lack of fuel. *)
Lemma decode_has_fuel s : JSONDecoder_decode float_of_string s <> Raised OutOfFuel.
Proof.
  unfold JSONDecoder_decode.
  pose proof (skip_ws_length s) as Hw.
  destruct (scan_has_fuel (S (2 * String.length s))) as (Honce & _).
  specialize (Honce (skip_ws s)).
  destruct (scan_once _ _ _) as [v r | e].
  - destruct (skip_ws r); discriminate.
  - intros [= ->]. apply Honce; [lia | reflexivity].
Qed.
End Fuel.

(** ** The token-budget settings through the config store *)

Lemma append_assoc (a b c : string) : (a +:+ b) +:+ c = a +:+ (b +:+ c).
Proof.
  induction a as [ | x a IH]; [reflexivity | ].
  change (String x ((a +:+ b) +:+ c) = String x (a +:+ (b +:+ c))).
  rewrite IH. reflexivity.
Qed.

Lemma ends_number_cons c r :
  is_digit c = false -> c <> "."%char -> c <> "e"%char -> c <> "E"%char ->
  ends_number (String c r).
Proof. intros; repeat split; assumption. Qed.

(** The digits of a decimal number are read back up to what follows. *)
Lemma scan_digits_uint d rest :
  match rest with String c _ => is_digit c = false | EmptyString => True end ->
  scan_digits (NilEmpty.string_of_uint d +:+ rest) = (NilEmpty.string_of_uint d, rest).
Proof.
  intros Hrest. induction d; simpl; try (rewrite IHd; reflexivity).
  destruct rest as [ | c r]; simpl; [reflexivity | rewrite Hrest; reflexivity].
Qed.

(** A normalised decimal number is [0] or starts with another digit. *)
Lemma unorm_head d :
  match unorm d with
  | Nil => False
  | D0 Nil => True
  | D0 _ => False
  | _ => True
  end.
Proof. induction d; simpl; auto. Qed.

Lemma to_uint_normal p : unorm (Pos.to_uint p) = Pos.to_uint p.
Proof.
  rewrite <- (DecimalPos.Unsigned.to_of (Pos.to_uint p)).
  rewrite DecimalPos.Unsigned.of_to. reflexivity.
Qed.

Lemma match_integer_str_int n rest :
  0 <= n -> ends_number rest ->
  match_integer (str_int n +:+ rest) = Some (str_int n, rest).
Proof.
  intros Hn Hrest.
  assert (Hd : match rest with String c _ => is_digit c = false | EmptyString => True end).
  { destruct rest; [exact I | apply Hrest]. }
  destruct n as [ | p | p]; [reflexivity | | lia].
  unfold str_int. simpl Z.to_int. simpl NilZero.string_of_int.
  pose proof (unorm_head (Pos.to_uint p)) as Hh.
  rewrite to_uint_normal in Hh.
  pose proof (DecimalPos.Unsigned.to_uint_nonzero p) as Hz.
  destruct (Pos.to_uint p) as [ | d | d | d | d | d | d | d | d | d | d ] eqn:Hp;
    try contradiction.
  1: { destruct d; contradiction. }
  all: unfold NilZero.string_of_uint; simpl;
    rewrite (scan_digits_uint d rest Hd); reflexivity.
Qed.

(** [int(str(n)) = n]. *)
Lemma int_of_lexeme_str_int n : int_of_lexeme (str_int n) = n.
Proof.
  unfold int_of_lexeme, str_int. rewrite NilZero.isi.
  - apply DecimalZ.of_to.
  - destruct n; simpl; try discriminate. intros [= H].
    exact (DecimalPos.Unsigned.to_uint_nonnil _ H).
  - destruct n; simpl; try discriminate. intros [= H].
    exact (DecimalPos.Unsigned.to_uint_nonnil _ H).
Qed.

Lemma str_int_head n :
  0 <= n -> exists c s, str_int n = String c s /\ is_digit c = true.
Proof.
  intros Hn. destruct n as [ | p | p]; [eexists _, _; split; reflexivity | | lia].
  unfold str_int. simpl.
  pose proof (DecimalPos.Unsigned.to_uint_nonnil p) as Hz.
  destruct (Pos.to_uint p); try (exfalso; apply Hz; reflexivity);
    eexists _, _; split; reflexivity.
Qed.

Lemma skip_ws_str_int n rest :
  0 <= n -> skip_ws (str_int n +:+ rest) = str_int n +:+ rest.
Proof.
  intros Hn. destruct (str_int_head n Hn) as (c & s & -> & Hc).
  change (String c s +:+ rest) with (String c (s +:+ rest)).
  destruct c as [[] [] [] [] [] [] [] []]; try discriminate Hc; reflexivity.
Qed.

Section JsonFacts.
Context {F : Type}.
Variable float_repr : F -> string.
Variable float_of_string : string -> F.

Lemma scan_number_str_int n rest :
  0 <= n -> ends_number rest ->
  scan_number float_of_string (str_int n +:+ rest) = Some (JInt n, rest).
Proof.
  intros Hn Hrest. unfold scan_number. rewrite match_integer_str_int by assumption.
  assert (match_frac rest = (EmptyString, rest)) as ->.
  { destruct rest as [ | c r]; [reflexivity | ]. simpl.
    destruct Hrest as (_ & Hdot & _). apply Ascii.eqb_neq in Hdot.
    rewrite Hdot. reflexivity. }
  assert (match_exp rest = (EmptyString, rest)) as ->.
  { destruct rest as [ | c r]; [reflexivity | ]. simpl.
    destruct Hrest as (_ & _ & He & HE).
    apply Ascii.eqb_neq in He, HE. rewrite He, HE. reflexivity. }
  rewrite int_of_lexeme_str_int. reflexivity.
Qed.

(** At a digit, [scan_once] is the number scanner. *)
Lemma scan_once_digit fuel c s :
  is_digit c = true ->
  scan_once float_of_string (S fuel) (String c s) =
  match scan_number float_of_string (String c s) with
  | Some (v, r) => Scanned v r
  | None => ScanError JSONDecodeError
  end.
Proof.
  intros Hc.
  destruct c as [[] [] [] [] [] [] [] []]; try discriminate Hc; reflexivity.
Qed.

(** [str(n)] is read back as [n]. *)
Lemma scan_once_str_int fuel n rest :
  0 <= n -> ends_number rest ->
  scan_once float_of_string (S fuel) (str_int n +:+ rest) = Scanned (JInt n) rest.
Proof.
  intros Hn Hrest.
  destruct (str_int_head n Hn) as (c & s & Hs & Hc).
  pose proof (scan_number_str_int n rest Hn Hrest) as Hnum.
  rewrite Hs in *. change (String c s +:+ rest) with (String c (s +:+ rest)) in *.
  rewrite scan_once_digit by exact Hc. rewrite Hnum. reflexivity.
Qed.

(** One member of an object that is followed by another one. *)
Lemma members_more fuel acc s key rv value T :
  scanstring s = Scanned key (String ":" (String " " rv)) ->
  skip_ws rv = rv ->
  scan_once float_of_string fuel rv
    = Scanned value (String "," (String " " (String quote T))) ->
  object_members float_of_string (S fuel) acc s
    = object_members float_of_string fuel (acc ++ [(key, value)]) T.
Proof.
  intros Hkey Hws Hval. simpl. rewrite Hkey. simpl. rewrite Hws, Hval. reflexivity.
Qed.

(** The last member of an object. *)
Lemma members_last fuel acc s key rv value T :
  scanstring s = Scanned key (String ":" (String " " rv)) ->
  skip_ws rv = rv ->
  scan_once float_of_string fuel rv = Scanned value (String "}" T) ->
  object_members float_of_string (S fuel) acc s
    = Scanned (JDict (py_dict (acc ++ [(key, value)]))) T.
Proof.
  intros Hkey Hws Hval. simpl. rewrite Hkey. simpl. rewrite Hws, Hval. reflexivity.
Qed.

Lemma dumps_settings e b p :
  json_dumps float_repr (token_budget_settings e b p) = settings_text e b p.
Proof.
  unfold token_budget_settings, settings_text, member_text, next_member.
  simpl json_dumps. rewrite !append_assoc.
  destruct e; reflexivity.
Qed.

(** [json.loads(json.dumps(settings)) == settings]. *)
Lemma loads_dumps_settings e b p :
  0 <= b -> 0 <= p ->
  json_loads float_of_string (JStr (json_dumps float_repr (token_budget_settings e b p)))
    = Returned (token_budget_settings e b p).
Proof.
  intros Hb Hp. unfold json_loads. rewrite dumps_settings. unfold JSONDecoder_decode.
  assert (Hfuel : exists n, (2 * String.length (settings_text e b p) = S (S (S (S n))))%nat).
  { destruct e; eexists; reflexivity. }
  destruct Hfuel as [n ->].
  set (t3 := str_int p +:+ "}").
  set (t2 := str_int b +:+ next_member (member_text TOKEN_BUDGET_TIME_PERIOD t3)).
  set (t1 := bool_text e +:+ next_member (member_text TOKEN_BUDGET t2)).
  assert (skip_ws (settings_text e b p) = settings_text e b p) as ->
    by (destruct e; reflexivity).
  change (scan_once float_of_string (S (S (S (S (S n))))) (settings_text e b p))
    with (object_members float_of_string (S (S (S (S n)))) []
            (member_text ENABLE_TOKEN_BUDGET t1)).
  rewrite (members_more _ _ _ ENABLE_TOKEN_BUDGET t1 (JBool e)
             (member_text TOKEN_BUDGET t2));
    [ | reflexivity | destruct e; reflexivity | destruct e; reflexivity ].
  rewrite (members_more _ _ _ TOKEN_BUDGET t2 (JInt b)
             (member_text TOKEN_BUDGET_TIME_PERIOD t3));
    [ | reflexivity | apply skip_ws_str_int, Hb
      | apply (scan_once_str_int _ b); [exact Hb | ] ].
  2: { apply (ends_number_cons ","); [reflexivity | discriminate ..]. }
  rewrite (members_last _ _ _ TOKEN_BUDGET_TIME_PERIOD t3 (JInt p) EmptyString);
    [ | reflexivity | apply skip_ws_str_int, Hp
      | apply (scan_once_str_int _ p); [exact Hp | ] ].
  2: { apply (ends_number_cons "}"); [reflexivity | discriminate ..]. }
  reflexivity.
Qed.
End JsonFacts.

#[local] Arguments json_loads : simpl never.

Section TokenBudget.
Context {F LLM E : Type}.
Variable float_repr : F -> string.
Variable float_of_string : string -> F.
Variable TOKEN_BUDGET_SETTINGS : string.
Variable env : oracle F LLM E.

(** C10.  A valid update stores the JSON text of the three settings under
    the settings key.  With the token budget globally enabled, a read
    against a config store that still holds what the update left loads
    this text and returns the mapping of the three keys to [e], [b] and
    [p]. *)
Theorem token_budget_settings_round_trip (e : bool) (b p : Z) w e1 :
  0 <= b -> 1 <= p ->
  env _ get_dynamic_config_store (ext w) = (Returned tt, e1) ->
  let text :=
    json_dumps float_repr
      (JDict [(ENABLE_TOKEN_BUDGET, JBool e); (TOKEN_BUDGET, JInt b);
              (TOKEN_BUDGET_TIME_PERIOD, JInt p)]) in
  run env (update_token_budget_settings float_repr TOKEN_BUDGET_SETTINGS e b p) w =
    ([Event get_dynamic_config_store (Returned tt);
      Event (kv_store TOKEN_BUDGET_SETTINGS (JStr text)) (Returned tt)],
     Returned [("message", "Token budget settings updated successfully.")],
     mkWorld (<[TOKEN_BUDGET_SETTINGS := JStr text]> (kv w)) e1) /\
  forall w2 e2,
    kv w2 = <[TOKEN_BUDGET_SETTINGS := JStr text]> (kv w) ->
    env _ get_dynamic_config_store (ext w2) = (Returned tt, e2) ->
    run env (get_token_budget_settings float_of_string true TOKEN_BUDGET_SETTINGS) w2 =
      ([Event get_dynamic_config_store (Returned tt);
        Event (kv_load TOKEN_BUDGET_SETTINGS) (Returned (JStr text))],
       Returned (JDict [(ENABLE_TOKEN_BUDGET, JBool e); (TOKEN_BUDGET, JInt b);
                        (TOKEN_BUDGET_TIME_PERIOD, JInt p)]),
       mkWorld (kv w2) e2).
Proof.
  intros Hb Hp H1 text. split.
  - unfold update_token_budget_settings.
    assert (negb ((0 <=? b) && (1 <=? p)) = false) as ->.
    { apply negb_false_iff, andb_true_iff. split; apply Z.leb_le; lia. }
    simpl. rewrite H1. reflexivity.
  - intros w2 e2 Hkv H2. unfold get_token_budget_settings. simpl.
    rewrite H2. simpl. rewrite Hkv, lookup_insert_eq. simpl.
    change (json_loads float_of_string (JStr text))
      with (json_loads float_of_string
              (JStr (json_dumps float_repr (token_budget_settings e b p)))).
    rewrite loads_dumps_settings by lia. reflexivity.
Qed.
End TokenBudget.

(** ** Scenarios and decoder samples *)

(** Pair (1, 2) exists, its source is [FILE], the configuration lists
    two files and the policy allows. *)
Example scenario_file_connector :
  run double_env (create_deletion_attempt_for_connector_id (mkIdentifier 1 2))
      (demo_world quiet) =
    ([Event (get_connector_credential_pair 1 2) (Returned (Some file_pair));
      Event (cancel_indexing_attempts_for_connector 1 true) (Returned tt);
      Event (check_deletion_attempt_is_allowed file_pair) (Returned None);
      Event (apply_async 1 2) (Returned tt);
      Event get_default_file_store (Returned tt);
      Event (delete_file (JStr "a.pdf")) (Returned tt);
      Event (delete_file (JStr "b.pdf")) (Returned tt)],
     Returned tt, demo_world quiet).
Proof. reflexivity. Qed.

(** The deletion of the second file fails: the first file is gone, the
    job stays submitted, the exception comes out. *)
Example scenario_broken_file_store :
  run double_env (create_deletion_attempt_for_connector_id (mkIdentifier 1 2))
      (demo_world broken_store) =
    ([Event (get_connector_credential_pair 1 2) (Returned (Some file_pair));
      Event (cancel_indexing_attempts_for_connector 1 true) (Returned tt);
      Event (check_deletion_attempt_is_allowed file_pair) (Returned None);
      Event (apply_async 1 2) (Returned tt);
      Event get_default_file_store (Returned tt);
      Event (delete_file (JStr "a.pdf")) (Returned tt);
      Event (delete_file (JStr "b.pdf")) (Raised (PyException "OSError"))],
     Raised (PyException "OSError"), demo_world broken_store).
Proof. reflexivity. Qed.

(** The first check, and the one a second later. *)
Example scenario_two_checks :
  map event_kind first_check.1.1
    = [KConfigStore; KNow; KLoad; KLlmSetup; KLlmTest; KNow; KStore] /\
  map event_kind (run double_env double_gate first_check.2).1.1
    = [KConfigStore; KNow; KLoad] /\
  (run double_env double_gate first_check.2).1.2 = Returned tt.
Proof. repeat split; reflexivity. Qed.

(** The text that the update of the settings stores. *)
Example settings_text_sample :
  json_dumps double_float_repr (token_budget_settings true 10 3)
  = String "{" (String quote ("enable_token_budget" +:+ String quote
      (": true, " +:+ String quote ("token_budget" +:+ String quote
        (": 10, " +:+ String quote ("token_budget_time_period" +:+ String quote
          ": 3}")))))).
Proof. reflexivity. Qed.

(** Whitespace, nesting, a negative zero. *)
Example loads_nested :
  json_loads double_float_of_string (JStr " [1 , [true, null] ,-0, {}] ")
  = Returned (JList [JInt 1; JList [JBool true; JNull]; JInt 0; JDict []]).
Proof. reflexivity. Qed.

(** A later member with the same key wins and keeps the first place. *)
Example loads_repeated_key :
  json_loads double_float_of_string
    (JStr ("{" +:+ encode_str "a" +:+ ": 1, " +:+ encode_str "b" +:+ ": 2, "
           +:+ encode_str "a" +:+ ": 3}"))
  = Returned (JDict [("a", JInt 3); ("b", JInt 2)]).
Proof. reflexivity. Qed.

(** What the encoder escapes, the decoder reads back. *)
Example loads_escapes :
  json_dumps double_float_repr
    (JStr (String (ascii_of_N 9) (String (ascii_of_N 233) (String quote "\"))))
  = String quote ("\t\u00e9\" +:+ String quote ("\\" +:+ String quote EmptyString)) /\
  json_loads double_float_of_string
    (JStr (json_dumps double_float_repr
       (JStr (String (ascii_of_N 9) (String (ascii_of_N 233) (String quote "\"))))))
  = Returned (JStr (String (ascii_of_N 9) (String (ascii_of_N 233) (String quote "\")))).
Proof. split; reflexivity. Qed.

(** Texts that [json.loads] refuses: a leading zero, a trailing comma, an
    open array, a value after the value, a control character in a
    string. *)
Example loads_refused :
  Forall (fun text => json_loads double_float_of_string (JStr text)
                      = Raised JSONDecodeError)
    ["01"; "[1,]"; "["; "1 2"; "nul"; "-"; "{1: 2}";
     String quote (String (ascii_of_N 10) (String quote EmptyString))].
Proof. repeat constructor. Qed.

(** A value of the config store that is not a [str]. *)
Example loads_not_a_str :
  json_loads double_float_of_string (JInt 5) = Raised TypeError.
Proof. reflexivity. Qed.

(** * The scenarios of the specification, run on the doubles *)

(** Pair (1, 2) exists: lookup first, cancellation second. *)
Lemma deletion_cancels_before_admission_witness :
  exists o rest,
    (run double_env (create_deletion_attempt_for_connector_id (mkIdentifier 1 2))
         (demo_world quiet)).1.1
    = Event (get_connector_credential_pair 1 2) (Returned (Some file_pair))
      :: Event (cancel_indexing_attempts_for_connector 1 true) o :: rest.
Proof.
  refine (proj1 (deletion_cancels_before_admission double_env 1 2 (demo_world quiet)
                   file_pair quiet _ _ _ _ _)).
  - reflexivity.
  - reflexivity.
Defined.

(** Pair (7, 3) is absent. *)
Lemma deletion_of_absent_pair_is_not_found_witness :
  run double_env (create_deletion_attempt_for_connector_id (mkIdentifier 7 3))
      (demo_world no_pair) =
    ([Event (get_connector_credential_pair 7 3) (Returned None)],
     Raised (HTTPException 404
       "Connector with ID '7' and credential ID '3' does not exist. Has it already been deleted?"),
     demo_world no_pair).
Proof.
  apply (deletion_of_absent_pair_is_not_found double_env 7 3 (demo_world no_pair) no_pair).
  reflexivity.
Defined.

(** The policy denies with "deletion already in progress". *)
Lemma deletion_denied_by_policy_witness :
  run double_env (create_deletion_attempt_for_connector_id (mkIdentifier 1 2))
      (demo_world denying) =
    ([Event (get_connector_credential_pair 1 2) (Returned (Some file_pair));
      Event (cancel_indexing_attempts_for_connector 1 true) (Returned tt);
      Event (check_deletion_attempt_is_allowed file_pair)
            (Returned (Some "deletion already in progress"))],
     Raised (HTTPException 400 "deletion already in progress"),
     demo_world denying).
Proof.
  apply (deletion_denied_by_policy double_env 1 2 (demo_world denying) file_pair
           "deletion already in progress" denying denying denying).
  - reflexivity.
  - reflexivity.
  - reflexivity.
  - discriminate.
Defined.

(** The policy allows, the connector has two files. *)
Lemma deletion_allowed_submits_once_and_deletes_files_witness :
  count_kind KSubmitJob
    (run double_env (create_deletion_attempt_for_connector_id (mkIdentifier 1 2))
         (demo_world quiet)).1.1 = 1%nat /\
  count_kind KDeleteFile
    (run double_env (create_deletion_attempt_for_connector_id (mkIdentifier 1 2))
         (demo_world quiet)).1.1 = 2%nat.
Proof.
  destruct (deletion_allowed_submits_once_and_deletes_files double_env 1 2
              (demo_world quiet) file_pair None quiet quiet quiet
              (run double_env (create_deletion_attempt_for_connector_id (mkIdentifier 1 2))
                 (demo_world quiet)).1.1
              (Returned tt) (demo_world quiet)
              eq_refl eq_refl eq_refl eq_refl eq_refl) as (Hjob & _ & Hfiles).
  split; [exact Hjob | ].
  exact (proj2 (Hfiles (JList [JStr "a.pdf"; JStr "b.pdf"]) [JStr "a.pdf"; JStr "b.pdf"]
                  eq_refl eq_refl eq_refl eq_refl)).
Defined.

(** The deletion of "b.pdf" raises. *)
Lemma file_deletion_failure_propagates_witness :
  (run double_env (create_deletion_attempt_for_connector_id (mkIdentifier 1 2))
       (demo_world broken_store)).1.2 = Raised (PyException "OSError").
Proof.
  refine (proj1 (file_deletion_failure_propagates double_env 1 2 (demo_world broken_store)
                   (run double_env
                      (create_deletion_attempt_for_connector_id (mkIdentifier 1 2))
                      (demo_world broken_store)).1.1
                   _ (demo_world broken_store) 6%nat
                   (Event (delete_file (JStr "b.pdf")) (Raised (PyException "OSError")))
                   (PyException "OSError") _ _ _ _)).
  - reflexivity.
  - reflexivity.
  - reflexivity.
  - reflexivity.
Defined.

(** An hour after the last check the gate skips; without a record it
    goes on to the LLM. *)
Lemma cooldown_skips_within_window_and_validates_without_record_witness :
  (run double_env double_gate checked_world).1.2 = Returned tt /\
  exists o rest r w',
    run double_env double_gate (demo_world quiet) =
      (Event get_dynamic_config_store (Returned tt)
       :: Event datetime_now (Returned 1700000000000000)
       :: Event (kv_load GEN_AI_KEY_CHECK_TIME) (Raised ConfigNotFoundError)
       :: Event (get_default_llm 10) o :: rest, r, w').
Proof.
  split.
  - exact (f_equal (fun x => x.1.2)
             (proj1 (cooldown_skips_within_window_and_validates_without_record
                       double_timestamp double_fromtimestamp 86400 double_env
                       checked_world quiet 1700000000000000
                       (ext (run double_env double_gate checked_world).2)
                       eq_refl eq_refl)
                (JFloat 1699996400000000) 1699996400000000 86400000000
                eq_refl eq_refl eq_refl eq_refl)).
  - destruct (proj2 (cooldown_skips_within_window_and_validates_without_record
                       double_timestamp double_fromtimestamp 86400 double_env
                       (demo_world quiet) quiet 1700000000000000
                       (ext (run double_env double_gate checked_world).2)
                       eq_refl eq_refl) eq_refl)
      as (o & rest & r & w' & Hrun & _).
    exists o, rest, r, w'. exact Hrun.
Defined.

(** A check on a record of more than a day ago: the gate returns, the
    old record gives way to the time of the second look at the clock,
    and the next run, a second later, returns after three calls. *)
Lemma successful_validation_restarts_cooldown_witness :
  (run double_env double_gate stale_world).1.2 = Returned tt /\
  kv stale_world !! GEN_AI_KEY_CHECK_TIME = Some (JFloat 1699900000000000) /\
  kv (run double_env double_gate stale_world).2 !! GEN_AI_KEY_CHECK_TIME
    = Some (JFloat 1700000001000000) /\
  map event_kind
      (run double_env double_gate (run double_env double_gate stale_world).2).1.1
    = [KConfigStore; KNow; KLoad].
Proof.
  destruct (successful_validation_restarts_cooldown
              double_timestamp double_fromtimestamp 86400 double_env
              stale_world
              (run double_env double_gate stale_world).1.1
              (run double_env double_gate stale_world).1.2
              (run double_env double_gate stale_world).2 tt None)
    as (Hr & now' & t0 & Ht & Hkv & Hnext).
  - reflexivity.
  - right; right; right; right; left. reflexivity.
  - reflexivity.
  - intros ev Hin Hk. vm_compute in Hin.
    repeat (destruct Hin as [<- | Hin]; [first [reflexivity | discriminate Hk] | ]).
    contradiction.
  - assert (Hnow : Some (JFloat 1700000001000000)
                   = Some (JFloat (double_timestamp now') : json Z)).
    { rewrite <- (lookup_insert_eq (kv stale_world) GEN_AI_KEY_CHECK_TIME
                    (JFloat (double_timestamp now'))).
      rewrite <- Hkv. reflexivity. }
    injection Hnow as Hnow. unfold double_timestamp in Hnow. subst now'.
    split; [exact Hr | ]. split; [reflexivity | ]. split.
    + rewrite Hkv. apply lookup_insert_eq.
    + exact (f_equal (fun x => map event_kind x.1.1)
               (Hnext (run double_env double_gate stale_world).2
                  (ext (run double_env double_gate stale_world).2) 1700000002000000
                  (mkDouble 1700000003000000 (Some file_pair) None true None None None)
                  86400000000 eq_refl eq_refl eq_refl eq_refl eq_refl eq_refl)).
Defined.

(** No LLM set up: 404.  A key the LLM rejects: 400 with its message. *)
Lemma validation_failures_are_distinguished_witness :
  (run double_env double_gate (demo_world no_llm)).1.2
    = Raised (HTTPException 404 "LLM not setup") /\
  (run double_env double_gate (demo_world bad_key)).1.2
    = Raised (HTTPException 400 "invalid api key").
Proof.
  split.
  - refine (proj1 (proj1 (validation_failures_are_distinguished
                            double_timestamp double_fromtimestamp 86400 double_env
                            (demo_world no_llm)
                            (run double_env double_gate (demo_world no_llm)).1.1
                            _
                            (run double_env double_gate (demo_world no_llm)).2
                            eq_refl) ValueError _ eq_refl)).
    right; right; right; left. reflexivity.
  - refine (proj1 (proj2 (validation_failures_are_distinguished
                            double_timestamp double_fromtimestamp 86400 double_env
                            (demo_world bad_key)
                            (run double_env double_gate (demo_world bad_key)).1.1
                            _
                            (run double_env double_gate (demo_world bad_key)).2
                            eq_refl) tt "invalid api key" _ _)).
    + right; right; right; right; left. reflexivity.
    + discriminate.
Defined.

(** An admin targets their own email. *)
Lemma admin_cannot_deactivate_self_witness :
  run double_env
      (deactivate_user (mkUserByEmail "admin@example.com")
                       (mkUser "admin@example.com" true))
      (demo_world quiet) =
    ([], Raised (HTTPException 400 "You cannot deactivate yourself"), demo_world quiet).
Proof.
  exact (proj1 (admin_cannot_deactivate_self double_env
                  (mkUserByEmail "admin@example.com")
                  (mkUser "admin@example.com" true) (demo_world quiet)) eq_refl).
Defined.

(** Budget 10 per period of 3, enabled: what is read is what was put. *)
Lemma token_budget_settings_round_trip_witness :
  (run double_env
       (get_token_budget_settings double_float_of_string true "token_budget_settings")
       (run double_env
            (update_token_budget_settings double_float_repr "token_budget_settings"
               true 10 3)
            (demo_world quiet)).2).1.2
  = Returned (JDict [(ENABLE_TOKEN_BUDGET, JBool true); (TOKEN_BUDGET, JInt 10);
                     (TOKEN_BUDGET_TIME_PERIOD, JInt 3)]).
Proof.
  exact (f_equal (fun x => x.1.2)
           (proj2 (token_budget_settings_round_trip double_float_repr
                     double_float_of_string "token_budget_settings" double_env
                     true 10 3 (demo_world quiet) quiet
                     ltac:(lia) ltac:(lia) eq_refl)
              (run double_env
                 (update_token_budget_settings double_float_repr "token_budget_settings"
                    true 10 3)
                 (demo_world quiet)).2
              quiet eq_refl eq_refl)).
Defined.

(** * Further properties of the handlers *)

(** ** The deletion-attempt handler, beyond the admitted path *)

Section MoreDeletion.
Context {F LLM E : Type}.
Variable env : oracle F LLM E.

Lemma deletions_kind (l : list (json F)) j (ev : event F LLM) :
  deletions l !! j = Some ev -> event_kind ev = KDeleteFile.
Proof.
  revert j. induction l as [ | x l IH]; intros [ | j] H; simpl in H; try discriminate.
  - inversion H; subst. reflexivity.
  - eapply IH, H.
Qed.

Ltac job_found :=
  split; [reflexivity | ]; eexists _, _; repeat split; (reflexivity || assumption).

(* Walks [Hi] along a trace that is written out. *)
Ltac locate Hi Hk :=
  match type of Hi with
  | [] !! _ = Some _ => rewrite lookup_nil in Hi; discriminate Hi
  | (_ :: _) !! ?i = Some _ =>
      destruct i; simpl in Hi;
      [ inversion Hi; subst; first [discriminate Hk | job_found] | locate Hi Hk ]
  | _ => idtac
  end.

(** X1.  A job submission in a trace of the deletion handler sits at the
    fourth place, behind a lookup that found the pair, a cancellation
    that returned and a policy answer that is falsy. *)
Theorem job_only_after_admission cid crid w t r w' i ev :
  run env (create_deletion_attempt_for_connector_id (mkIdentifier cid crid)) w
    = (t, r, w') ->
  t !! i = Some ev -> event_kind ev = KSubmitJob ->
  i = 3%nat /\
  exists pair reason,
    t !! 0%nat = Some (Event (get_connector_credential_pair cid crid)
                             (Returned (Some pair))) /\
    t !! 1%nat = Some (Event (cancel_indexing_attempts_for_connector cid true)
                             (Returned tt)) /\
    t !! 2%nat = Some (Event (check_deletion_attempt_is_allowed pair)
                             (Returned reason)) /\
    truthy reason = false.
Proof.
  intros H Hi Hk. unfold create_deletion_attempt_for_connector_id in H. simpl in H.
  destruct (env _ (get_connector_credential_pair cid crid) (ext w)) as [o1 e1].
  destruct o1 as [[pair | ] | x]; simpl in H;
    [ | inversion H; subst; locate Hi Hk ..].
  destruct (env _ (cancel_indexing_attempts_for_connector cid true) e1) as [o2 e2].
  destruct o2 as [[] | x]; simpl in H; [ | inversion H; subst; locate Hi Hk].
  destruct (env _ (check_deletion_attempt_is_allowed pair) e2) as [o3 e3].
  destruct o3 as [reason | x]; simpl in H; [ | inversion H; subst; locate Hi Hk].
  destruct (truthy reason) eqn:Hr; simpl in H; [inversion H; subst; locate Hi Hk | ].
  destruct (env _ (apply_async cid crid) e3) as [o4 e4].
  destruct o4 as [[] | x]; simpl in H; [ | inversion H; subst; locate Hi Hk].
  destruct (source (connector pair)); simpl in H; [ | inversion H; subst; locate Hi Hk].
  destruct (env _ get_default_file_store e4) as [o5 e5].
  destruct o5 as [[] | x]; simpl in H; [ | inversion H; subst; locate Hi Hk].
  destruct (connector_specific_config (connector pair) !! "file_locations") as [locs | ];
    simpl in H; [ | inversion H; subst; locate Hi Hk].
  destruct (py_iter locs) as [names | ]; simpl in H; [ | inversion H; subst; locate Hi Hk].
  destruct (run env (for_each names _) _) as [[t1 r1] w1] eqn:Hloop.
  inversion H; subst; clear H.
  apply run_delete_loop in Hloop.
  locate Hi Hk.
  destruct Hloop as [_ [[_ ->] | (dn & fn & rest & e & _ & _ & ->)]].
  - rewrite (deletions_kind _ _ _ Hi) in Hk. discriminate.
  - apply lookup_app_Some in Hi. destruct Hi as [Hi | [_ Hi]].
    + rewrite (deletions_kind _ _ _ Hi) in Hk. discriminate.
    + destruct (_ - _)%nat; simpl in Hi; [inversion Hi; subst; discriminate | ].
      rewrite lookup_nil in Hi. discriminate.
Qed.

(** X2.  For a [FILE] connector whose configuration has no
    [file_locations], the handler raises [KeyError]; if the entry is not
    iterable, it raises [TypeError].  Both come after the job was
    submitted and the file store fetched, and no file is deleted. *)
Theorem file_locations_must_be_listed cid crid w pair reason e1 e2 e3 e4 e5 :
  env _ (get_connector_credential_pair cid crid) (ext w) = (Returned (Some pair), e1) ->
  env _ (cancel_indexing_attempts_for_connector cid true) e1 = (Returned tt, e2) ->
  env _ (check_deletion_attempt_is_allowed pair) e2 = (Returned reason, e3) ->
  truthy reason = false ->
  env _ (apply_async cid crid) e3 = (Returned tt, e4) ->
  source (connector pair) = FILE ->
  env _ get_default_file_store e4 = (Returned tt, e5) ->
  let before :=
    [Event (get_connector_credential_pair cid crid) (Returned (Some pair));
     Event (cancel_indexing_attempts_for_connector cid true) (Returned tt);
     Event (check_deletion_attempt_is_allowed pair) (Returned reason);
     Event (apply_async cid crid) (Returned tt);
     Event get_default_file_store (Returned tt)] in
  (connector_specific_config (connector pair) !! "file_locations" = None ->
   run env (create_deletion_attempt_for_connector_id (mkIdentifier cid crid)) w
     = (before, Raised (KeyError "file_locations"), mkWorld (kv w) e5)) /\
  (forall locations,
     connector_specific_config (connector pair) !! "file_locations" = Some locations ->
     py_iter locations = None ->
     run env (create_deletion_attempt_for_connector_id (mkIdentifier cid crid)) w
       = (before, Raised TypeError, mkWorld (kv w) e5)).
Proof.
  intros H1 H2 H3 Hr H4 Hs H5 before.
  split; [intros Hl | intros locations Hl Hn];
    unfold create_deletion_attempt_for_connector_id; simpl;
    rewrite H1; simpl; rewrite H2; simpl; rewrite H3; simpl; rewrite Hr; simpl;
    rewrite H4; simpl; rewrite Hs; simpl; rewrite H5; simpl; rewrite Hl; simpl;
    [ | rewrite Hn; simpl]; reflexivity.
Qed.

(** X3.  For a connector whose source is not [FILE], an admitted deletion
    ends with the job submission: the file store is not asked for,
    whatever the configuration lists. *)
Theorem other_sources_keep_their_files cid crid w pair reason e1 e2 e3 e4 :
  env _ (get_connector_credential_pair cid crid) (ext w) = (Returned (Some pair), e1) ->
  env _ (cancel_indexing_attempts_for_connector cid true) e1 = (Returned tt, e2) ->
  env _ (check_deletion_attempt_is_allowed pair) e2 = (Returned reason, e3) ->
  truthy reason = false ->
  env _ (apply_async cid crid) e3 = (Returned tt, e4) ->
  source (connector pair) <> FILE ->
  run env (create_deletion_attempt_for_connector_id (mkIdentifier cid crid)) w =
    ([Event (get_connector_credential_pair cid crid) (Returned (Some pair));
      Event (cancel_indexing_attempts_for_connector cid true) (Returned tt);
      Event (check_deletion_attempt_is_allowed pair) (Returned reason);
      Event (apply_async cid crid) (Returned tt)],
     Returned tt, mkWorld (kv w) e4).
Proof.
  intros H1 H2 H3 Hr H4 Hs.
  unfold create_deletion_attempt_for_connector_id; simpl.
  rewrite H1; simpl; rewrite H2; simpl; rewrite H3; simpl; rewrite Hr; simpl.
  rewrite H4; simpl. destruct (source (connector pair)); [congruence | reflexivity].
Qed.

(** X4.  The files are deleted in the order of [file_locations]; the first
    deletion that raises ends the run, and the files behind it are not
    attempted. *)
Theorem file_deletions_stop_at_first_failure
    cid crid w pair reason e1 e2 e3 e4 e5 locations file_names t r w' :
  env _ (get_connector_credential_pair cid crid) (ext w) = (Returned (Some pair), e1) ->
  env _ (cancel_indexing_attempts_for_connector cid true) e1 = (Returned tt, e2) ->
  env _ (check_deletion_attempt_is_allowed pair) e2 = (Returned reason, e3) ->
  truthy reason = false ->
  env _ (apply_async cid crid) e3 = (Returned tt, e4) ->
  source (connector pair) = FILE ->
  env _ get_default_file_store e4 = (Returned tt, e5) ->
  connector_specific_config (connector pair) !! "file_locations" = Some locations ->
  py_iter locations = Some file_names ->
  run env (create_deletion_attempt_for_connector_id (mkIdentifier cid crid)) w
    = (t, r, w') ->
  let before :=
    [Event (get_connector_credential_pair cid crid) (Returned (Some pair));
     Event (cancel_indexing_attempts_for_connector cid true) (Returned tt);
     Event (check_deletion_attempt_is_allowed pair) (Returned reason);
     Event (apply_async cid crid) (Returned tt);
     Event get_default_file_store (Returned tt)] in
  (r = Returned tt /\ t = before ++ deletions file_names) \/
  (exists done file_name rest e,
     file_names = done ++ file_name :: rest /\
     r = Raised e /\
     t = before ++ deletions done ++ [Event (delete_file file_name) (Raised e)]).
Proof.
  intros H1 H2 H3 Hr H4 Hs H5 Hl Hn H before.
  unfold create_deletion_attempt_for_connector_id in H; simpl in H.
  rewrite H1 in H; simpl in H; rewrite H2 in H; simpl in H; rewrite H3 in H; simpl in H.
  rewrite Hr in H; simpl in H; rewrite H4 in H; simpl in H; rewrite Hs in H; simpl in H.
  rewrite H5 in H; simpl in H; rewrite Hl in H; simpl in H; rewrite Hn in H; simpl in H.
  destruct (run env (for_each file_names _) _) as [[t1 r1] w1] eqn:Hloop.
  inversion H; subst; clear H.
  apply run_delete_loop in Hloop.
  destruct Hloop as [_ [[-> ->] | (dn & fn & rest & e & -> & -> & ->)]].
  - left. split; reflexivity.
  - right. exists dn, fn, rest, e. repeat split; reflexivity.
Qed.

End MoreDeletion.

(** ** The cooldown gate, beyond the window *)

Section MoreCooldown.
Context {F LLM E : Type}.
Variable timestamp : datetime -> F.
Variable fromtimestamp : json F -> outcome datetime.
Variable GENERATIVE_MODEL_ACCESS_CHECK_FREQ : Z.
Variable env : oracle F LLM E.

#[local] Abbreviation gate :=
  (validate_existing_genai_api_key (LLM:=LLM) timestamp fromtimestamp
     GENERATIVE_MODEL_ACCESS_CHECK_FREQ).

(* One goal per way through the gate. *)
Ltac ways H :=
  repeat (simpl in H;
    match type of H with
    | context [env ?X ?c ?e] =>
        let o := fresh "o" in let e' := fresh "e" in let Hc := fresh "Hc" in
        destruct (env X c e) as [o e'] eqn:Hc; destruct o
    | context [kv ?w !! ?k] =>
        let v := fresh "v" in let Hv := fresh "Hv" in
        destruct (kv w !! k) as [v | ] eqn:Hv
    | context [fromtimestamp ?v] =>
        let Hf := fresh "Hf" in
        destruct (fromtimestamp v) as [? | []] eqn:Hf
    | context [timedelta_seconds ?s] =>
        let Hd := fresh "Hd" in destruct (timedelta_seconds s) as [? | []] eqn:Hd
    | context [?a <? ?b] =>
        let Hlt := fresh "Hlt" in destruct (a <? b) eqn:Hlt
    | context [isinstance_ValueError ?x] =>
        let Hx := fresh "Hx" in destruct (isinstance_ValueError x) eqn:Hx
    | context [truthy ?x] =>
        let Hx := fresh "Hx" in destruct (truthy x) eqn:Hx
    end); simpl in H.

(** X5.  When the record is [D] or more old, the boundary included, the
    gate goes on to [get_default_llm] and, once the client is there, to
    [test_llm]. *)
Theorem gate_validates_after_window w e1 now e2 v last_check D :
  env _ get_dynamic_config_store (ext w) = (Returned tt, e1) ->
  env _ datetime_now e1 = (Returned now, e2) ->
  kv w !! GEN_AI_KEY_CHECK_TIME = Some v ->
  fromtimestamp v = Returned last_check ->
  timedelta_seconds GENERATIVE_MODEL_ACCESS_CHECK_FREQ = Returned D ->
  D <= now - last_check ->
  exists o rest r w',
    run env gate w =
      (Event get_dynamic_config_store (Returned tt)
       :: Event datetime_now (Returned now)
       :: Event (kv_load GEN_AI_KEY_CHECK_TIME) (Returned v)
       :: Event (get_default_llm 10) o :: rest, r, w') /\
    (forall llm, o = Returned llm ->
       exists o', rest !! 0%nat = Some (Event (test_llm llm) o')).
Proof.
  intros H1 H2 Hv Hf Hd Hge.
  destruct (run env gate w) as [[t r] w'] eqn:H.
  unfold validate_existing_genai_api_key in H. simpl in H.
  rewrite H1 in H. simpl in H. rewrite H2 in H. simpl in H. rewrite Hv in H. simpl in H.
  rewrite Hf in H. simpl in H. rewrite Hd in H. simpl in H.
  assert ((now - last_check <? D) = false) as Hlt by (apply Z.ltb_ge; exact Hge).
  rewrite Hlt in H.
  ways H; inversion H; subst; clear H; eexists _, _, _, _;
    (split; [reflexivity | ]);
    intros llm Hllm; inversion Hllm; subst; eexists; reflexivity.
Qed.

(** X6.  A record that [fromtimestamp] refuses, or a check frequency that
    [timedelta] refuses, makes the gate raise that exception after the
    load: only [ConfigNotFoundError] is caught, and no validation takes
    place. *)
Theorem unreadable_record_fails_the_gate w e1 now e2 v :
  env _ get_dynamic_config_store (ext w) = (Returned tt, e1) ->
  env _ datetime_now e1 = (Returned now, e2) ->
  kv w !! GEN_AI_KEY_CHECK_TIME = Some v ->
  let before :=
    [Event get_dynamic_config_store (Returned tt);
     Event datetime_now (Returned now);
     Event (kv_load GEN_AI_KEY_CHECK_TIME) (Returned v)] in
  (forall e, fromtimestamp v = Raised e -> e <> ConfigNotFoundError ->
     run env gate w = (before, Raised e, mkWorld (kv w) e2)) /\
  (forall last_check,
     fromtimestamp v = Returned last_check ->
     timedelta_seconds GENERATIVE_MODEL_ACCESS_CHECK_FREQ = Raised OverflowError ->
     run env gate w = (before, Raised OverflowError, mkWorld (kv w) e2)).
Proof.
  intros H1 H2 Hv before. split.
  - intros e Hf Hne. unfold validate_existing_genai_api_key. simpl.
    rewrite H1. simpl. rewrite H2. simpl. rewrite Hv. simpl. rewrite Hf. simpl.
    destruct e; try reflexivity. congruence.
  - intros last_check Hf Hd. unfold validate_existing_genai_api_key. simpl.
    rewrite H1. simpl. rewrite H2. simpl. rewrite Hv. simpl. rewrite Hf. simpl.
    rewrite Hd. reflexivity.
Qed.

(** X7.  The gate stores at most once, and only in a run that tested the
    LLM and returns; a run without a store leaves the config store as it
    was, and no run changes another key than the one of the check time. *)
Theorem gate_stores_only_on_success w t r w' :
  run env gate w = (t, r, w') ->
  (count_kind KStore t <= 1)%nat /\
  (count_kind KStore t = 1%nat -> r = Returned tt /\ count_kind KLlmTest t = 1%nat) /\
  (count_kind KStore t = 0%nat -> kv w' = kv w) /\
  (forall k, k <> GEN_AI_KEY_CHECK_TIME -> kv w' !! k = kv w !! k).
Proof.
  intros H. unfold validate_existing_genai_api_key in H.
  ways H; inversion H; subst; clear H; unfold count_kind; simpl;
    (split; [lia | ]);
    (split; [intros Hcount; first [discriminate Hcount | split; reflexivity] | ]);
    (split; [intros Hcount; first [discriminate Hcount | reflexivity] | ]);
    intros k Hk; first [reflexivity | apply lookup_insert_ne; congruence].
Qed.

(** X8.  An exception of [get_default_llm] that is not a [ValueError], and
    any exception of [test_llm], comes out of the gate as it is. *)
Theorem other_llm_errors_pass_through w t r w' :
  run env gate w = (t, r, w') ->
  (forall e, In (Event (get_default_llm 10) (Raised e)) t ->
     isinstance_ValueError e = false -> r = Raised e) /\
  (forall llm e, In (Event (test_llm llm) (Raised e)) t -> r = Raised e).
Proof.
  intros H. unfold validate_existing_genai_api_key in H.
  ways H; inversion H; subst; clear H.
  all: split;
    [ intros x Hin Hval; simpl in Hin;
      repeat (destruct Hin as [Hin | Hin];
              [ apply (f_equal (fun ev : event F LLM => (event_kind ev, event_raised ev)))
                  in Hin; simpl in Hin;
                first [discriminate Hin | inversion Hin; subst; congruence] | ]);
      contradiction
    | intros llm x Hin; simpl in Hin;
      repeat (destruct Hin as [Hin | Hin];
              [ apply (f_equal (fun ev : event F LLM => (event_kind ev, event_raised ev)))
                  in Hin; simpl in Hin;
                first [discriminate Hin | inversion Hin; subst; congruence] | ]);
      contradiction ].
Qed.

(** Without a record the gate goes on to the LLM. *)
Lemma gate_validates_without_record w e1 now e2 :
  env _ get_dynamic_config_store (ext w) = (Returned tt, e1) ->
  env _ datetime_now e1 = (Returned now, e2) ->
  kv w !! GEN_AI_KEY_CHECK_TIME = None ->
  exists o rest r w',
    run env gate w =
      (Event get_dynamic_config_store (Returned tt)
       :: Event datetime_now (Returned now)
       :: Event (kv_load GEN_AI_KEY_CHECK_TIME) (Raised ConfigNotFoundError)
       :: Event (get_default_llm 10) o :: rest, r, w').
Proof.
  intros H1 H2 Hv.
  destruct (run env gate w) as [[t r] w'] eqn:H.
  unfold validate_existing_genai_api_key in H. simpl in H.
  rewrite H1 in H. simpl in H. rewrite H2 in H. simpl in H. rewrite Hv in H.
  ways H; inversion H; subst; clear H; eexists _, _, _, _; reflexivity.
Qed.

(** X9.  A first check that fails leaves no record, so the next run
    validates again. *)
Theorem failed_validation_starts_no_cooldown w t e w1 :
  run env gate w = (t, Raised e, w1) ->
  kv w !! GEN_AI_KEY_CHECK_TIME = None ->
  forall w2 e1 now e2,
    kv w2 = kv w1 ->
    env _ get_dynamic_config_store (ext w2) = (Returned tt, e1) ->
    env _ datetime_now e1 = (Returned now, e2) ->
    exists o rest r w',
      run env gate w2 =
        (Event get_dynamic_config_store (Returned tt)
         :: Event datetime_now (Returned now)
         :: Event (kv_load GEN_AI_KEY_CHECK_TIME) (Raised ConfigNotFoundError)
         :: Event (get_default_llm 10) o :: rest, r, w').
Proof.
  intros H Hnone w2 e1 now e2 Hkv H1 H2.
  apply (gate_validates_without_record w2 e1 now e2 H1 H2).
  rewrite Hkv.
  unfold validate_existing_genai_api_key in H.
  ways H; inversion H; subst; clear H; simpl; first [assumption | congruence].
Qed.
End MoreCooldown.

(** ** What the decoder raises *)

(** The scanners end with the exceptions of [decode_error]. *)
Lemma scanstring_errors s e : scanstring s = ScanError e -> decode_error e.
Proof.
  assert (H : forall n s e, (String.length s <= n)%nat ->
            scanstring s = ScanError e -> decode_error e);
    [ | apply (H (String.length s)); lia].
  clear s e. induction n as [ | n IH]; intros s e Hn.
  - destruct s; [simpl; intros [= <-]; left; reflexivity | simpl in Hn; lia].
  - destruct s as [ | c s']; [simpl; intros [= <-]; left; reflexivity | ].
    simpl in Hn.
    assert (Hcons : forall (x : ascii) (t : string),
      (String.length t <= n)%nat ->
      match scanstring t with
      | Scanned u rest => Scanned (String x u) rest
      | ScanError e => ScanError e
      end = ScanError e -> decode_error e).
    { intros x t Ht Hres. specialize (IH t e Ht).
      destruct (scanstring t); [discriminate | ]. inversion Hres; subst. apply IH. reflexivity. }
    simpl scanstring.
    destruct (N_of_ascii c =? 34)%N; [discriminate | ].
    destruct (N_of_ascii c =? 92)%N.
    + destruct s' as [ | x s'']; [intros [= <-]; left; reflexivity | ].
      destruct (N_of_ascii x) as [ | p]; [intros [= <-]; left; reflexivity | ].
      simpl in Hn.
      repeat (destruct p as [p | p | ]; try (intros [= <-]; left; reflexivity);
              try (apply Hcons; simpl; lia)).
      destruct s'' as [ | h1 [ | h2 [ | h3 [ | h4 s3]]]];
        try (intros [= <-]; left; reflexivity).
      destruct (hex_value h1), (hex_value h2), (hex_value h3), (hex_value h4);
        try (intros [= <-]; left; reflexivity).
      match goal with |- context [if ?b then _ else _] => destruct b end;
        [ | intros [= <-]; right; left; reflexivity].
      apply Hcons; simpl in *; lia.
    + destruct (N_of_ascii c <? 32)%N; [intros [= <-]; left; reflexivity | ].
      apply Hcons; simpl; lia.
Qed.

Section DecodeErrors.
Context {F : Type}.
Variable float_of_string : string -> F.

Lemma scan_atom_errors s e :
  scan_atom float_of_string s = ScanError e -> decode_error e.
Proof.
  unfold scan_atom.
  destruct (after_prefix "null" s); [discriminate | ].
  destruct (after_prefix "true" s); [discriminate | ].
  destruct (after_prefix "false" s); [discriminate | ].
  destruct (scan_number float_of_string s) as [[v r] | ]; [discriminate | ].
  destruct (scan_constant float_of_string s) as [[v r] | ]; [discriminate | ].
  intros [= <-]. left. reflexivity.
Qed.

#[local] Arguments scan_atom : simpl never.
#[local] Arguments skip_ws : simpl never.
#[local] Arguments scanstring : simpl never.

Lemma scan_errors fuel :
  (forall s e, scan_once float_of_string fuel s = ScanError e -> decode_error e) /\
  (forall acc s e,
     object_members float_of_string fuel acc s = ScanError e -> decode_error e) /\
  (forall acc s e,
     array_elements float_of_string fuel acc s = ScanError e -> decode_error e).
Proof.
  assert (Hjson : decode_error JSONDecodeError) by (left; reflexivity).
  induction fuel as [ | f (IHonce & IHmembers & IHelements)].
  - repeat split; intros; simpl in *;
      match goal with H : ScanError _ = ScanError _ |- _ => inversion H end;
      right; right; reflexivity.
  - split; [ | split].
    + intros [ | c s'] e; simpl; [intros [= <-]; exact Hjson | ].
      destruct (N_of_ascii c =? 34)%N.
      { destruct (scanstring s') eqn:Hs; [discriminate | ].
        intros [= <-]. eapply scanstring_errors, Hs. }
      destruct (N_of_ascii c =? 123)%N.
      { destruct (skip_ws s') as [ | c1 r]; [intros [= <-]; exact Hjson | ].
        destruct (N_of_ascii c1 =? 125)%N; [discriminate | ].
        destruct (N_of_ascii c1 =? 34)%N; [apply IHmembers | intros [= <-]; exact Hjson]. }
      destruct (N_of_ascii c =? 91)%N; [ | apply scan_atom_errors].
      destruct (skip_ws s') as [ | c1 r]; [apply IHelements | ].
      destruct (N_of_ascii c1 =? 93)%N; [discriminate | apply IHelements].
    + intros acc s e. simpl.
      destruct (scanstring s) as [key r1 | x] eqn:Hs;
        [ | intros [= <-]; eapply scanstring_errors, Hs].
      destruct (skip_ws r1) as [ | c2 r2]; [intros [= <-]; exact Hjson | ].
      destruct (N_of_ascii c2 =? 58)%N; [ | intros [= <-]; exact Hjson].
      destruct (scan_once float_of_string f (skip_ws r2)) as [value r3 | x] eqn:Hv;
        [ | intros [= <-]; eapply IHonce, Hv].
      destruct (skip_ws r3) as [ | c4 r4]; [intros [= <-]; exact Hjson | ].
      destruct (N_of_ascii c4 =? 125)%N; [discriminate | ].
      destruct (N_of_ascii c4 =? 44)%N; [ | intros [= <-]; exact Hjson].
      destruct (skip_ws r4) as [ | c5 r5]; [intros [= <-]; exact Hjson | ].
      destruct (N_of_ascii c5 =? 34)%N; [apply IHmembers | intros [= <-]; exact Hjson].
    + intros acc s e. simpl.
      destruct (scan_once float_of_string f s) as [value r1 | x] eqn:Hv;
        [ | intros [= <-]; eapply IHonce, Hv].
      destruct (skip_ws r1) as [ | c2 r2]; [intros [= <-]; exact Hjson | ].
      destruct (N_of_ascii c2 =? 93)%N; [discriminate | ].
      destruct (N_of_ascii c2 =? 44)%N; [apply IHelements | intros [= <-]; exact Hjson].
Qed.

(** What [json.loads] raises: [JSONDecodeError], [TypeError], or the
    mark of a text that the embedding does not cover. *)
Lemma json_loads_errors (x : json F) e :
  json_loads float_of_string x = Raised e ->
  e = JSONDecodeError \/ e = TypeError \/ e = NotModelled.
Proof.
  destruct x; unfold json_loads; try (intros [= <-]; right; left; reflexivity).
  intros H. pose proof (decode_has_fuel float_of_string s) as Hfuel.
  unfold JSONDecoder_decode in *.
  destruct (scan_once _ _ _) as [v r | x] eqn:Hs.
  - destruct (skip_ws r); [discriminate | ]. inversion H; subst. left. reflexivity.
  - inversion H; subst.
    destruct (proj1 (scan_errors _) _ _ Hs) as [-> | [-> | ->]];
      [left; reflexivity | right; right; reflexivity | congruence].
Qed.
End DecodeErrors.

#[local] Arguments json_loads : simpl never.

(** ** Reading and updating the token-budget settings *)

Section MoreTokenBudget.
Context {F LLM E : Type}.
Variable float_repr : F -> string.
Variable float_of_string : string -> F.
Variable TOKEN_BUDGET_SETTINGS : string.
Variable env : oracle F LLM E.

(** X10.  Without stored settings the read raises the 404 "Token budget
    settings not found."; so it does when the access to the config store
    itself raises [ConfigNotFoundError], since the [try] covers it. *)
Theorem missing_settings_are_not_found w :
  (forall e1,
     env _ get_dynamic_config_store (ext w) = (Returned tt, e1) ->
     kv w !! TOKEN_BUDGET_SETTINGS = None ->
     run env (get_token_budget_settings float_of_string true TOKEN_BUDGET_SETTINGS) w =
       ([Event get_dynamic_config_store (Returned tt);
         Event (kv_load TOKEN_BUDGET_SETTINGS) (Raised ConfigNotFoundError)],
        Raised (HTTPException 404 "Token budget settings not found."),
        mkWorld (kv w) e1)) /\
  (forall e1,
     env _ get_dynamic_config_store (ext w) = (Raised ConfigNotFoundError, e1) ->
     run env (get_token_budget_settings float_of_string true TOKEN_BUDGET_SETTINGS) w =
       ([Event get_dynamic_config_store (Raised ConfigNotFoundError)],
        Raised (HTTPException 404 "Token budget settings not found."),
        mkWorld (kv w) e1)).
Proof.
  split; intros e1 H1; [intros Hv | ];
    unfold get_token_budget_settings; simpl; rewrite H1; simpl;
    [rewrite Hv | ]; reflexivity.
Qed.

(** X11.  For a stored value within the reach of the decoder (no [\u]
    escape above U+00FF, digit runs and nesting within the limits of the
    interpreter), what the read returns is [json.loads] of the stored
    value: a text that decodes is returned without a look at its shape,
    and what the read raises is the [JSONDecodeError] of the decoder or
    the [TypeError] of a value that is no [str], never an
    [HTTPException]. *)
Theorem stored_settings_are_returned_as_decoded w e1 v :
  env _ get_dynamic_config_store (ext w) = (Returned tt, e1) ->
  kv w !! TOKEN_BUDGET_SETTINGS = Some v ->
  within_decoder_limits v = true ->
  json_loads float_of_string v <> Raised NotModelled ->
  run env (get_token_budget_settings float_of_string true TOKEN_BUDGET_SETTINGS) w =
    ([Event get_dynamic_config_store (Returned tt);
      Event (kv_load TOKEN_BUDGET_SETTINGS) (Returned v)],
     json_loads float_of_string v,
     mkWorld (kv w) e1) /\
  (forall e, json_loads float_of_string v = Raised e ->
     e = JSONDecodeError \/ e = TypeError).
Proof.
  intros H1 Hv _ Hreach. split.
  - unfold get_token_budget_settings. simpl. rewrite H1. simpl.
    rewrite Hv. simpl.
    destruct (json_loads float_of_string v) as [x | e] eqn:Hl; simpl; [reflexivity | ].
    destruct (json_loads_errors float_of_string v e Hl) as [-> | [-> | ->]]; reflexivity.
  - intros e Hl.
    destruct (json_loads_errors float_of_string v e Hl) as [-> | [-> | ->]];
      [left; reflexivity | right; reflexivity | contradiction].
Qed.

(** X12.  An update never touches another key; if it changes the config
    store, the budget is at least 0, the period at least 1, and the
    stored text decodes to the requested settings. *)
Theorem update_changes_only_valid_settings (e : bool) (b p : Z) w t r w' :
  run env (update_token_budget_settings float_repr TOKEN_BUDGET_SETTINGS e b p) w
    = (t, r, w') ->
  (forall k, k <> TOKEN_BUDGET_SETTINGS -> kv w' !! k = kv w !! k) /\
  (kv w' = kv w \/
   (0 <= b /\ 1 <= p /\
    exists text,
      kv w' !! TOKEN_BUDGET_SETTINGS = Some (JStr text) /\
      json_loads float_of_string (JStr text) = Returned (token_budget_settings e b p))).
Proof.
  intros H. unfold update_token_budget_settings in H.
  destruct ((0 <=? b) && (1 <=? p)) eqn:Hvalid; simpl in H.
  2:{ inversion H; subst. split; [reflexivity | left; reflexivity]. }
  apply andb_true_iff in Hvalid. destruct Hvalid as [Hb Hp].
  apply Z.leb_le in Hb, Hp.
  destruct (env _ get_dynamic_config_store (ext w)) as [o1 e1]. destruct o1; simpl in H.
  2:{ inversion H; subst. split; [reflexivity | left; reflexivity]. }
  inversion H; subst; clear H. simpl. split.
  - intros k Hk. apply lookup_insert_ne. congruence.
  - right. split; [exact Hb | split; [exact Hp | ]].
    eexists. split; [apply lookup_insert_eq | ].
    apply (loads_dumps_settings float_repr float_of_string e b p); lia.
Qed.

(** X13.  Two settings with the same JSON text are the same settings. *)
Theorem settings_text_determines_settings (e e' : bool) (b b' p p' : Z) :
  0 <= b -> 0 <= p -> 0 <= b' -> 0 <= p' ->
  json_dumps float_repr (token_budget_settings e b p)
    = json_dumps float_repr (token_budget_settings e' b' p') ->
  e = e' /\ b = b' /\ p = p'.
Proof.
  intros Hb Hp Hb' Hp' Htext.
  pose proof (loads_dumps_settings float_repr float_of_string e b p Hb Hp) as H1.
  pose proof (loads_dumps_settings float_repr float_of_string e' b' p' Hb' Hp') as H2.
  rewrite Htext, H2 in H1. unfold token_budget_settings in H1.
  inversion H1; subst. repeat split; reflexivity.
Qed.
End MoreTokenBudget.

(** ** Activating and deactivating users *)

Section MoreUsers.
Context {F LLM E : Type}.
Variable env : oracle F LLM E.

(** X14.  Deactivating an email that no user has raises the 404 "User not
    found" after the lookup; nothing is added or committed. *)
Theorem deactivate_unknown_user_is_not_found (target : UserByEmail) (current_user : User)
    w e1 :
  email current_user <> user_email target ->
  env _ (get_user_by_email (user_email target)) (ext w) = (Returned None, e1) ->
  run env (deactivate_user target current_user) w =
    ([Event (get_user_by_email (user_email target)) (Returned None)],
     Raised (HTTPException 404 "User not found"), mkWorld (kv w) e1).
Proof.
  intros Hne H1. unfold deactivate_user.
  apply String.eqb_neq in Hne. rewrite Hne. simpl. rewrite H1. reflexivity.
Qed.

(** X15.  Deactivating a user adds the user with [is_active = False] and
    commits; for a user who is inactive already a warning is logged first
    and the write still takes place. *)
Theorem deactivate_writes_the_user_inactive (target : UserByEmail) (current_user u : User)
    w e1 :
  email current_user <> user_email target ->
  env _ (get_user_by_email (user_email target)) (ext w) = (Returned (Some u), e1) ->
  (is_active u = true ->
   forall e2 e3,
     env _ (db_add (mkUser (email u) false)) e1 = (Returned tt, e2) ->
     env _ db_commit e2 = (Returned tt, e3) ->
     run env (deactivate_user target current_user) w =
       ([Event (get_user_by_email (user_email target)) (Returned (Some u));
         Event (db_add (mkUser (email u) false)) (Returned tt);
         Event db_commit (Returned tt)],
        Returned tt, mkWorld (kv w) e3)) /\
  (is_active u = false ->
   forall e2 e3 e4,
     env _ (logger_warning (email u +:+ " is already deactivated")) e1
       = (Returned tt, e2) ->
     env _ (db_add (mkUser (email u) false)) e2 = (Returned tt, e3) ->
     env _ db_commit e3 = (Returned tt, e4) ->
     run env (deactivate_user target current_user) w =
       ([Event (get_user_by_email (user_email target)) (Returned (Some u));
         Event (logger_warning (email u +:+ " is already deactivated")) (Returned tt);
         Event (db_add (mkUser (email u) false)) (Returned tt);
         Event db_commit (Returned tt)],
        Returned tt, mkWorld (kv w) e4)).
Proof.
  intros Hne H1. apply String.eqb_neq in Hne. split.
  - intros Ha e2 e3 H2 H3. unfold deactivate_user. rewrite Hne. simpl. rewrite H1. simpl.
    rewrite Ha. simpl. rewrite H2. simpl. rewrite H3. reflexivity.
  - intros Ha e2 e3 e4 H2 H3 H4. unfold deactivate_user. rewrite Hne. simpl.
    rewrite H1. simpl. rewrite Ha. simpl. rewrite H2. simpl. rewrite H3. simpl.
    rewrite H4. reflexivity.
Qed.

(** X16.  Activating an unknown email raises the 404 "User not found";
    otherwise the user is added with [is_active = True] and committed,
    behind a warning if the user is active already. *)
Theorem activate_user_outcomes (target : UserByEmail) w e1 :
  (env _ (get_user_by_email (user_email target)) (ext w) = (Returned None, e1) ->
   run env (activate_user target) w =
     ([Event (get_user_by_email (user_email target)) (Returned None)],
      Raised (HTTPException 404 "User not found"), mkWorld (kv w) e1)) /\
  (forall u,
     env _ (get_user_by_email (user_email target)) (ext w) = (Returned (Some u), e1) ->
     is_active u = false ->
     forall e2 e3,
       env _ (db_add (mkUser (email u) true)) e1 = (Returned tt, e2) ->
       env _ db_commit e2 = (Returned tt, e3) ->
       run env (activate_user target) w =
         ([Event (get_user_by_email (user_email target)) (Returned (Some u));
           Event (db_add (mkUser (email u) true)) (Returned tt);
           Event db_commit (Returned tt)],
          Returned tt, mkWorld (kv w) e3)) /\
  (forall u,
     env _ (get_user_by_email (user_email target)) (ext w) = (Returned (Some u), e1) ->
     is_active u = true ->
     forall e2 e3 e4,
       env _ (logger_warning (email u +:+ " is already activated")) e1
         = (Returned tt, e2) ->
       env _ (db_add (mkUser (email u) true)) e2 = (Returned tt, e3) ->
       env _ db_commit e3 = (Returned tt, e4) ->
       run env (activate_user target) w =
         ([Event (get_user_by_email (user_email target)) (Returned (Some u));
           Event (logger_warning (email u +:+ " is already activated")) (Returned tt);
           Event (db_add (mkUser (email u) true)) (Returned tt);
           Event db_commit (Returned tt)],
          Returned tt, mkWorld (kv w) e4)).
Proof.
  split; [ | split].
  - intros H1. unfold activate_user. simpl. rewrite H1. reflexivity.
  - intros u H1 Ha e2 e3 H2 H3. unfold activate_user. simpl. rewrite H1. simpl.
    rewrite Ha. simpl. rewrite H2. simpl. rewrite H3. reflexivity.
  - intros u H1 Ha e2 e3 e4 H2 H3 H4. unfold activate_user. simpl. rewrite H1. simpl.
    rewrite Ha. simpl. rewrite H2. simpl. rewrite H3. simpl. rewrite H4. reflexivity.
Qed.

(* Every way through one of the two handlers. *)
Ltac user_ways H :=
  repeat (simpl in H;
    match type of H with
    | context [env ?X ?c ?e] =>
        let o := fresh "o" in let e' := fresh "e" in
        destruct (env X c e) as [o e']; destruct o
    | context [String.eqb ?a ?b] => destruct (String.eqb a b)
    | context [match ?x with Some _ => _ | None => _ end] => destruct x
    | context [is_active ?u] => destruct (is_active u)
    end); simpl in H.

(** X17.  Whatever the collaborators answer, a user that [deactivate_user]
    adds to the session is inactive (and the admin's email is not the
    target's), and a user that [activate_user] adds is active. *)
Theorem user_status_is_written_one_way (target : UserByEmail) (current_user : User)
    w t r w' ev u :
  In ev t -> added_user ev = Some u ->
  (run env (deactivate_user target current_user) w = (t, r, w') ->
   is_active u = false /\ email current_user <> user_email target) /\
  (run env (activate_user target) w = (t, r, w') -> is_active u = true).
Proof.
  intros Hin Hu. split.
  - intros H. unfold deactivate_user in H.
    destruct (String.eqb (email current_user) (user_email target)) eqn:Heq;
      [simpl in H; inversion H; subst; contradiction | ].
    apply String.eqb_neq in Heq. split; [ | exact Heq].
    user_ways H; inversion H; subst; clear H; simpl in Hin;
      repeat (destruct Hin as [<- | Hin]; [simpl in Hu; try discriminate Hu;
                                           inversion Hu; reflexivity | ]);
      contradiction.
  - intros H. unfold activate_user in H.
    user_ways H; inversion H; subst; clear H; simpl in Hin;
      repeat (destruct Hin as [<- | Hin]; [simpl in Hu; try discriminate Hu;
                                           inversion Hu; reflexivity | ]);
      contradiction.
Qed.
End MoreUsers.

(** ** Documents and invitations *)

Section MoreManage.
Context {DI E : Type}.
Variable exn_str : exn -> string.
Variable list_of_union : list string -> list string -> list string.
Variable env : manage_oracle DI E.

Lemma or_empty_default (x : option string) : or_empty x = default EmptyString x.
Proof. destruct x as [[ | c s] | ]; reflexivity. Qed.

(** X18.  The boosted documents come back one per fetched row, in the order
    of the rows, and a row without link gets the empty string. *)
Theorem boosted_docs_keep_order_and_have_links (ascending : bool) (limit : Z) e docs e1 :
  env _ (fetch_docs_ranked_by_boost ascending limit) e = (Returned docs, e1) ->
  exists boost_docs,
    manage_run env (get_most_boosted_docs ascending limit) e =
      ([Asked (fetch_docs_ranked_by_boost ascending limit) (Returned docs)],
       Returned boost_docs, e1) /\
    length boost_docs = length docs /\
    forall i doc, docs !! i = Some doc ->
      boost_docs !! i =
        Some (mkBoostDoc (doc_id doc) (doc_semantic_id doc)
                (default EmptyString (doc_link doc)) (doc_boost doc) (doc_hidden doc)).
Proof.
  intros H1. eexists. split; [ | split].
  - unfold get_most_boosted_docs. simpl. rewrite H1. reflexivity.
  - apply length_map.
  - clear H1. intros i doc Hi. revert i Hi.
    induction docs as [ | d ds IH]; intros [ | i] Hi; simpl in *; try discriminate.
    + inversion Hi; subst. rewrite or_empty_default. reflexivity.
    + apply IH. exact Hi.
Qed.

(** X19.  In the boost update only a [ValueError] of [update_document_boost]
    becomes the 400 with [str(e)]: exceptions of the two calls before it,
    [ValueError] included, and other exceptions of the update come out
    as they are. *)
Theorem only_the_update_is_translated (boost_update : BoostUpdateRequest) e :
  (forall x e1,
     env _ get_both_index_names e = (Raised x, e1) ->
     manage_run env (document_boost_update exn_str boost_update) e =
       ([Asked get_both_index_names (Raised x)], Raised x, e1)) /\
  (forall curr sec e1,
     env _ get_both_index_names e = (Returned (curr, sec), e1) ->
     (forall x e2,
        env _ (get_default_document_index curr sec) e1 = (Raised x, e2) ->
        manage_run env (document_boost_update exn_str boost_update) e =
          ([Asked get_both_index_names (Returned (curr, sec));
            Asked (get_default_document_index curr sec) (Raised x)], Raised x, e2)) /\
     (forall di e2 o e3,
        env _ (get_default_document_index curr sec) e1 = (Returned di, e2) ->
        env _ (update_document_boost (boost_document_id boost_update)
                 (new_boost boost_update) di) e2 = (o, e3) ->
        manage_run env (document_boost_update exn_str boost_update) e =
          ([Asked get_both_index_names (Returned (curr, sec));
            Asked (get_default_document_index curr sec) (Returned di);
            Asked (update_document_boost (boost_document_id boost_update)
                     (new_boost boost_update) di) o],
           match o with
           | Returned tt => Returned tt
           | Raised x =>
               if isinstance_ValueError x
               then Raised (HTTPException 400 (exn_str x))
               else Raised x
           end, e3))).
Proof.
  split.
  - intros x e1 H1. unfold document_boost_update. simpl. rewrite H1. reflexivity.
  - intros curr sec e1 H1. split.
    + intros x e2 H2. unfold document_boost_update. simpl. rewrite H1. simpl.
      rewrite H2. reflexivity.
    + intros di e2 o e3 H2 H3. unfold document_boost_update. simpl. rewrite H1. simpl.
      rewrite H2. simpl. rewrite H3. destruct o as [[] | x]; simpl; [reflexivity | ].
      destruct (isinstance_ValueError x); reflexivity.
Qed.

(** X20.  The same for the update of the hidden flag. *)
Theorem only_the_hiding_is_translated (hidden_update : HiddenUpdateRequest) e :
  (forall x e1,
     env _ get_both_index_names e = (Raised x, e1) ->
     manage_run env (document_hidden_update exn_str hidden_update) e =
       ([Asked get_both_index_names (Raised x)], Raised x, e1)) /\
  (forall curr sec e1,
     env _ get_both_index_names e = (Returned (curr, sec), e1) ->
     (forall x e2,
        env _ (get_default_document_index curr sec) e1 = (Raised x, e2) ->
        manage_run env (document_hidden_update exn_str hidden_update) e =
          ([Asked get_both_index_names (Returned (curr, sec));
            Asked (get_default_document_index curr sec) (Raised x)], Raised x, e2)) /\
     (forall di e2 o e3,
        env _ (get_default_document_index curr sec) e1 = (Returned di, e2) ->
        env _ (update_document_hidden (hidden_document_id hidden_update)
                 (new_hidden hidden_update) di) e2 = (o, e3) ->
        manage_run env (document_hidden_update exn_str hidden_update) e =
          ([Asked get_both_index_names (Returned (curr, sec));
            Asked (get_default_document_index curr sec) (Returned di);
            Asked (update_document_hidden (hidden_document_id hidden_update)
                     (new_hidden hidden_update) di) o],
           match o with
           | Returned tt => Returned tt
           | Raised x =>
               if isinstance_ValueError x
               then Raised (HTTPException 400 (exn_str x))
               else Raised x
           end, e3))).
Proof.
  split.
  - intros x e1 H1. unfold document_hidden_update. simpl. rewrite H1. reflexivity.
  - intros curr sec e1 H1. split.
    + intros x e2 H2. unfold document_hidden_update. simpl. rewrite H1. simpl.
      rewrite H2. reflexivity.
    + intros di e2 o e3 H2 H3. unfold document_hidden_update. simpl. rewrite H1. simpl.
      rewrite H2. simpl. rewrite H3. destruct o as [[] | x]; simpl; [reflexivity | ].
      destruct (isinstance_ValueError x); reflexivity.
Qed.

(** X21.  The list written by a removal does not hold the removed email,
    holds every other invited email, in the order read, and is the list
    read when the email was not invited; the answer of the write is the
    handler's. *)
Theorem removal_keeps_the_others (target : UserByEmail) e user_emails e1 t r e' :
  env _ get_invited_users e = (Returned user_emails, e1) ->
  manage_run env (remove_invited_user target) e = (t, r, e') ->
  exists written,
    t = [Asked get_invited_users (Returned user_emails);
         Asked (write_invited_users written) r] /\
    (user_email target ∉ written) /\
    (forall x, x <> user_email target -> (x ∈ written <-> x ∈ user_emails)) /\
    (written `sublist_of` user_emails) /\
    (user_email target ∉ user_emails -> written = user_emails).
Proof.
  clear exn_str list_of_union.
  intros H1 H. unfold remove_invited_user in H. simpl in H. rewrite H1 in H. simpl in H.
  set (keep := fun user => negb (String.eqb user (user_email target))) in H |- *.
  destruct (env _ (write_invited_users (List.filter keep user_emails)) e1) as [o e2].
  assert (Hrun : t = [Asked get_invited_users (Returned user_emails);
                      Asked (write_invited_users (List.filter keep user_emails)) o]
                 /\ r = o).
  { destruct o; simpl in H; inversion H; subst; split; reflexivity. }
  destruct Hrun as [-> ->]. clear H.
  assert (Hmem : forall x, x ∈ List.filter keep user_emails
                           <-> x ∈ user_emails /\ x <> user_email target).
  { intros x. rewrite !list_elem_of_In, filter_In. unfold keep.
    rewrite negb_true_iff, String.eqb_neq. reflexivity. }
  exists (List.filter keep user_emails). split; [reflexivity | ]. split; [ | split; [ | split]].
  - intros Hin. apply Hmem in Hin. destruct Hin as [_ Hne]. apply Hne. reflexivity.
  - intros x Hne. rewrite Hmem. tauto.
  - clear Hmem H1. induction user_emails as [ | x l IH]; simpl; [constructor | ].
    destruct (keep x); [apply sublist_skip | apply sublist_cons]; exact IH.
  - intros Hnot. clear Hmem H1. induction user_emails as [ | x l IH]; simpl; [reflexivity | ].
    assert (keep x = true) as ->.
    { unfold keep. apply negb_true_iff, String.eqb_neq. intros ->.
      apply Hnot. left. }
    f_equal. apply IH. intros Hin. apply Hnot. right. exact Hin.
Qed.

(** X22.  A bulk invite writes a list without repetition that holds every
    email invited before and every email of the request, and no other. *)
Theorem bulk_invite_adds_to_the_invited (emails : list string) e invited e1 t r e' :
  env _ get_invited_users e = (Returned invited, e1) ->
  NoDup (list_of_union emails invited) ->
  (forall x, x ∈ list_of_union emails invited <-> x ∈ emails \/ x ∈ invited) ->
  manage_run env (bulk_invite_users list_of_union emails) e = (t, r, e') ->
  exists written,
    t = [Asked get_invited_users (Returned invited);
         Asked (write_invited_users written) r] /\
    NoDup written /\
    (forall x, x ∈ invited -> x ∈ written) /\
    (forall x, x ∈ emails -> x ∈ written) /\
    (forall x, x ∈ written -> x ∈ emails \/ x ∈ invited).
Proof.
  intros H1 Hnd Hmem H. unfold bulk_invite_users in H. simpl in H. rewrite H1 in H.
  simpl in H.
  destruct (env _ (write_invited_users (list_of_union emails invited)) e1) as [o e2].
  exists (list_of_union emails invited).
  split; [destruct o; simpl in H; inversion H; subst; reflexivity | ].
  split; [exact Hnd | ]. repeat split; intros x Hx; apply Hmem; auto.
Qed.

End MoreManage.

(** ** The further properties on the doubles *)

Lemma job_only_after_admission_witness :
  exists pair reason,
    (run double_env (create_deletion_attempt_for_connector_id (mkIdentifier 1 2))
         (demo_world quiet)).1.1 !! 2%nat
    = Some (Event (check_deletion_attempt_is_allowed pair) (Returned reason)) /\
    truthy reason = false.
Proof.
  destruct (job_only_after_admission double_env 1 2 (demo_world quiet)
              (run double_env (create_deletion_attempt_for_connector_id (mkIdentifier 1 2))
                 (demo_world quiet)).1.1
              (Returned tt) (demo_world quiet) 3%nat
              (Event (apply_async 1 2) (Returned tt)) eq_refl eq_refl eq_refl)
    as (_ & pair & reason & _ & _ & Hpolicy & Hfalsy).
  exists pair, reason. split; [exact Hpolicy | exact Hfalsy].
Defined.

Lemma file_locations_must_be_listed_witness :
  (run double_env (create_deletion_attempt_for_connector_id (mkIdentifier 1 2))
       (demo_world (with_pair unlisted_pair))).1.2
    = Raised (KeyError "file_locations") /\
  (run double_env (create_deletion_attempt_for_connector_id (mkIdentifier 1 2))
       (demo_world (with_pair odd_pair))).1.2
    = Raised TypeError.
Proof.
  split.
  - exact (f_equal (fun x => x.1.2)
             (proj1 (file_locations_must_be_listed double_env 1 2
                       (demo_world (with_pair unlisted_pair)) unlisted_pair None
                       (with_pair unlisted_pair) (with_pair unlisted_pair)
                       (with_pair unlisted_pair) (with_pair unlisted_pair)
                       (with_pair unlisted_pair)
                       eq_refl eq_refl eq_refl eq_refl eq_refl eq_refl eq_refl)
                eq_refl)).
  - exact (f_equal (fun x => x.1.2)
             (proj2 (file_locations_must_be_listed double_env 1 2
                       (demo_world (with_pair odd_pair)) odd_pair None
                       (with_pair odd_pair) (with_pair odd_pair)
                       (with_pair odd_pair) (with_pair odd_pair)
                       (with_pair odd_pair)
                       eq_refl eq_refl eq_refl eq_refl eq_refl eq_refl eq_refl)
                (JInt 3) eq_refl eq_refl)).
Defined.

Lemma other_sources_keep_their_files_witness :
  run double_env (create_deletion_attempt_for_connector_id (mkIdentifier 1 2))
      (demo_world (with_pair web_pair)) =
    ([Event (get_connector_credential_pair 1 2) (Returned (Some web_pair));
      Event (cancel_indexing_attempts_for_connector 1 true) (Returned tt);
      Event (check_deletion_attempt_is_allowed web_pair) (Returned None);
      Event (apply_async 1 2) (Returned tt)],
     Returned tt, demo_world (with_pair web_pair)).
Proof.
  apply (other_sources_keep_their_files double_env 1 2 (demo_world (with_pair web_pair))
           web_pair None (with_pair web_pair) (with_pair web_pair)
           (with_pair web_pair) (with_pair web_pair));
    first [reflexivity | discriminate].
Defined.

Lemma file_deletions_stop_at_first_failure_witness :
  exists done file_name rest e,
    ([JStr "a.pdf"; JStr "b.pdf"] : list (json Z)) = done ++ file_name :: rest /\
    (run double_env (create_deletion_attempt_for_connector_id (mkIdentifier 1 2))
         (demo_world broken_store)).1.2 = Raised e.
Proof.
  destruct (file_deletions_stop_at_first_failure double_env 1 2 (demo_world broken_store)
              file_pair None broken_store broken_store broken_store broken_store
              broken_store (JList [JStr "a.pdf"; JStr "b.pdf"])
              [JStr "a.pdf"; JStr "b.pdf"]
              (run double_env (create_deletion_attempt_for_connector_id (mkIdentifier 1 2))
                 (demo_world broken_store)).1.1
              (run double_env (create_deletion_attempt_for_connector_id (mkIdentifier 1 2))
                 (demo_world broken_store)).1.2
              (demo_world broken_store)
              eq_refl eq_refl eq_refl eq_refl eq_refl eq_refl eq_refl eq_refl eq_refl
              eq_refl)
    as [[Hr _] | (dn & fn & rest & e & Hnames & Hr & _)].
  - vm_compute in Hr. discriminate Hr.
  - exists dn, fn, rest, e. split; [exact Hnames | exact Hr].
Defined.

Lemma gate_validates_after_window_witness :
  exists o rest r w',
    run double_env double_gate stale_world =
      (Event get_dynamic_config_store (Returned tt)
       :: Event datetime_now (Returned 1700000000000000)
       :: Event (kv_load GEN_AI_KEY_CHECK_TIME) (Returned (JFloat 1699900000000000))
       :: Event (get_default_llm 10) o :: rest, r, w').
Proof.
  destruct (gate_validates_after_window double_timestamp double_fromtimestamp 86400
              double_env stale_world quiet 1700000000000000
              (ext (run double_env double_gate checked_world).2)
              (JFloat 1699900000000000) 1699900000000000 86400000000
              eq_refl eq_refl eq_refl eq_refl eq_refl ltac:(lia))
    as (o & rest & r & w' & Hrun & _).
  exists o, rest, r, w'. exact Hrun.
Defined.

Lemma unreadable_record_fails_the_gate_witness :
  (run double_env double_gate unreadable_world).1.2 = Raised TypeError /\
  (run double_env endless_gate checked_world).1.2 = Raised OverflowError.
Proof.
  split.
  - exact (f_equal (fun x => x.1.2)
             (proj1 (unreadable_record_fails_the_gate double_timestamp
                       double_fromtimestamp 86400 double_env unreadable_world quiet
                       1700000000000000
                       (ext (run double_env double_gate checked_world).2)
                       (JStr "yesterday") eq_refl eq_refl eq_refl)
                TypeError eq_refl ltac:(discriminate))).
  - exact (f_equal (fun x => x.1.2)
             (proj2 (unreadable_record_fails_the_gate double_timestamp
                       double_fromtimestamp (10 ^ 15) double_env checked_world quiet
                       1700000000000000
                       (ext (run double_env double_gate checked_world).2)
                       (JFloat 1699996400000000) eq_refl eq_refl eq_refl)
                1699996400000000 eq_refl eq_refl)).
Defined.

Lemma gate_stores_only_on_success_witness :
  (count_kind KStore first_check.1.1 <= 1)%nat /\
  kv first_check.2 !! "token_budget_settings" = None.
Proof.
  destruct (gate_stores_only_on_success double_timestamp double_fromtimestamp 86400
              double_env (demo_world quiet) first_check.1.1 first_check.1.2
              first_check.2 eq_refl)
    as (Hmost & _ & _ & Hframe).
  split; [exact Hmost | ].
  exact (Hframe "token_budget_settings" ltac:(discriminate)).
Defined.

Lemma other_llm_errors_pass_through_witness :
  (run (llm_raising (KeyError "model")) double_gate (demo_world no_llm)).1.2
    = Raised (KeyError "model") /\
  (run (llm_raising (KeyError "model")) double_gate (demo_world quiet)).1.2
    = Raised (KeyError "model").
Proof.
  split.
  - refine (proj1 (other_llm_errors_pass_through double_timestamp double_fromtimestamp
                     86400 (llm_raising (KeyError "model")) (demo_world no_llm)
                     (run (llm_raising (KeyError "model")) double_gate
                          (demo_world no_llm)).1.1
                     _
                     (run (llm_raising (KeyError "model")) double_gate
                          (demo_world no_llm)).2
                     eq_refl) (KeyError "model") _ eq_refl).
    right; right; right; left. reflexivity.
  - refine (proj2 (other_llm_errors_pass_through double_timestamp double_fromtimestamp
                     86400 (llm_raising (KeyError "model")) (demo_world quiet)
                     (run (llm_raising (KeyError "model")) double_gate
                          (demo_world quiet)).1.1
                     _
                     (run (llm_raising (KeyError "model")) double_gate
                          (demo_world quiet)).2
                     eq_refl) tt (KeyError "model") _).
    right; right; right; right; left. reflexivity.
Defined.

Lemma failed_validation_starts_no_cooldown_witness :
  exists o rest r w',
    run double_env double_gate (run double_env double_gate (demo_world no_llm)).2 =
      (Event get_dynamic_config_store (Returned tt)
       :: Event datetime_now (Returned 1700000001000000)
       :: Event (kv_load GEN_AI_KEY_CHECK_TIME) (Raised ConfigNotFoundError)
       :: Event (get_default_llm 10) o :: rest, r, w').
Proof.
  apply (failed_validation_starts_no_cooldown double_timestamp double_fromtimestamp 86400
           double_env (demo_world no_llm)
           (run double_env double_gate (demo_world no_llm)).1.1
           (HTTPException 404 "LLM not setup")
           (run double_env double_gate (demo_world no_llm)).2
           eq_refl eq_refl
           (run double_env double_gate (demo_world no_llm)).2
           (ext (run double_env double_gate (demo_world no_llm)).2)
           1700000001000000
           (ext (run double_env double_gate
                   (run double_env double_gate (demo_world no_llm)).2).2));
    reflexivity.
Defined.

Lemma missing_settings_are_not_found_witness :
  (run double_env
       (get_token_budget_settings double_float_of_string true "token_budget_settings")
       (demo_world quiet)).1.2
    = Raised (HTTPException 404 "Token budget settings not found.") /\
  (run storeless
       (get_token_budget_settings double_float_of_string true "token_budget_settings")
       (demo_world quiet)).1.2
    = Raised (HTTPException 404 "Token budget settings not found.").
Proof.
  split.
  - exact (f_equal (fun x => x.1.2)
             (proj1 (missing_settings_are_not_found double_float_of_string
                       "token_budget_settings" double_env (demo_world quiet))
                quiet eq_refl eq_refl)).
  - exact (f_equal (fun x => x.1.2)
             (proj2 (missing_settings_are_not_found double_float_of_string
                       "token_budget_settings" storeless (demo_world quiet))
                quiet eq_refl)).
Defined.

Lemma stored_settings_are_returned_as_decoded_witness :
  (run double_env
       (get_token_budget_settings double_float_of_string true "token_budget_settings")
       garbled_world).1.2
    = Raised JSONDecodeError /\
  (run double_env
       (get_token_budget_settings double_float_of_string true "token_budget_settings")
       listed_world).1.2
    = Returned (JList [JInt 1; JInt 2]).
Proof.
  split.
  - refine (f_equal (fun x => x.1.2)
              (proj1 (stored_settings_are_returned_as_decoded double_float_of_string
                        "token_budget_settings" double_env garbled_world quiet
                        (JStr "[1, 2") eq_refl eq_refl eq_refl _))).
    vm_compute. discriminate.
  - refine (f_equal (fun x => x.1.2)
              (proj1 (stored_settings_are_returned_as_decoded double_float_of_string
                        "token_budget_settings" double_env listed_world quiet
                        (JStr "[1, 2]") eq_refl eq_refl eq_refl _))).
    vm_compute. discriminate.
Defined.

Lemma update_changes_only_valid_settings_witness :
  kv (run double_env
        (update_token_budget_settings double_float_repr "token_budget_settings"
           true 10 3) checked_world).2 !! GEN_AI_KEY_CHECK_TIME
  = kv checked_world !! GEN_AI_KEY_CHECK_TIME.
Proof.
  exact (proj1 (update_changes_only_valid_settings double_float_repr
                  double_float_of_string "token_budget_settings" double_env
                  true 10 3 checked_world
                  (run double_env
                     (update_token_budget_settings double_float_repr
                        "token_budget_settings" true 10 3) checked_world).1.1
                  (run double_env
                     (update_token_budget_settings double_float_repr
                        "token_budget_settings" true 10 3) checked_world).1.2
                  (run double_env
                     (update_token_budget_settings double_float_repr
                        "token_budget_settings" true 10 3) checked_world).2
                  eq_refl)
           GEN_AI_KEY_CHECK_TIME ltac:(discriminate)).
Defined.

Lemma settings_text_determines_settings_witness :
  true = true /\ 10 = 10 /\ 3 = 3.
Proof.
  apply (settings_text_determines_settings double_float_repr double_float_of_string
           true true 10 10 3 3); first [lia | reflexivity].
Defined.

Lemma deactivate_unknown_user_is_not_found_witness :
  run double_env (deactivate_user (mkUserByEmail "ghost@example.com") admin)
      (demo_world quiet) =
    ([Event (get_user_by_email "ghost@example.com") (Returned None)],
     Raised (HTTPException 404 "User not found"), demo_world quiet).
Proof.
  apply (deactivate_unknown_user_is_not_found double_env
           (mkUserByEmail "ghost@example.com") admin (demo_world quiet) quiet);
    first [reflexivity | discriminate].
Defined.

Lemma deactivate_writes_the_user_inactive_witness :
  (run double_env (deactivate_user (mkUserByEmail "bob@example.com") admin)
       (demo_world (with_user bob))).1.2 = Returned tt /\
  map event_kind
      (run double_env (deactivate_user (mkUserByEmail "bob@example.com") admin)
           (demo_world (with_user idle_bob))).1.1
    = [KUserLookup; KLog; KDbAdd; KDbCommit].
Proof.
  split.
  - exact (f_equal (fun x => x.1.2)
             (proj1 (deactivate_writes_the_user_inactive double_env
                       (mkUserByEmail "bob@example.com") admin bob
                       (demo_world (with_user bob)) (with_user bob)
                       ltac:(discriminate) eq_refl)
                eq_refl (with_user bob) (with_user bob) eq_refl eq_refl)).
  - exact (f_equal (fun x => map event_kind x.1.1)
             (proj2 (deactivate_writes_the_user_inactive double_env
                       (mkUserByEmail "bob@example.com") admin idle_bob
                       (demo_world (with_user idle_bob)) (with_user idle_bob)
                       ltac:(discriminate) eq_refl)
                eq_refl (with_user idle_bob) (with_user idle_bob) (with_user idle_bob)
                eq_refl eq_refl eq_refl)).
Defined.

Lemma activate_user_outcomes_witness :
  (run double_env (activate_user (mkUserByEmail "ghost@example.com"))
       (demo_world quiet)).1.2 = Raised (HTTPException 404 "User not found") /\
  (run double_env (activate_user (mkUserByEmail "bob@example.com"))
       (demo_world (with_user idle_bob))).1.1
    = [Event (get_user_by_email "bob@example.com") (Returned (Some idle_bob));
       Event (db_add bob) (Returned tt);
       Event db_commit (Returned tt)] /\
  map event_kind
      (run double_env (activate_user (mkUserByEmail "bob@example.com"))
           (demo_world (with_user bob))).1.1
    = [KUserLookup; KLog; KDbAdd; KDbCommit].
Proof.
  split; [ | split].
  - exact (f_equal (fun x => x.1.2)
             (proj1 (activate_user_outcomes double_env
                       (mkUserByEmail "ghost@example.com") (demo_world quiet) quiet)
                eq_refl)).
  - exact (f_equal (fun x => x.1.1)
             (proj1 (proj2 (activate_user_outcomes double_env
                              (mkUserByEmail "bob@example.com")
                              (demo_world (with_user idle_bob)) (with_user idle_bob)))
                idle_bob eq_refl eq_refl (with_user idle_bob) (with_user idle_bob)
                eq_refl eq_refl)).
  - exact (f_equal (fun x => map event_kind x.1.1)
             (proj2 (proj2 (activate_user_outcomes double_env
                              (mkUserByEmail "bob@example.com")
                              (demo_world (with_user bob)) (with_user bob)))
                bob eq_refl eq_refl (with_user bob) (with_user bob) (with_user bob)
                eq_refl eq_refl eq_refl)).
Defined.

Lemma user_status_is_written_one_way_witness :
  is_active idle_bob = false /\ email admin <> "bob@example.com".
Proof.
  refine (proj1 (user_status_is_written_one_way double_env
                   (mkUserByEmail "bob@example.com") admin
                   (demo_world (with_user bob))
                   (run double_env (deactivate_user (mkUserByEmail "bob@example.com") admin)
                        (demo_world (with_user bob))).1.1
                   (Returned tt) (demo_world (with_user bob))
                   (Event (db_add idle_bob) (Returned tt)) idle_bob _ eq_refl)
            eq_refl).
  right; left. reflexivity.
Defined.

Lemma boosted_docs_keep_order_and_have_links_witness :
  exists boost_docs,
    manage_run manage_double_env (get_most_boosted_docs false 10) office =
      ([Asked (fetch_docs_ranked_by_boost false 10) (Returned (m_docs office))],
       Returned boost_docs, office) /\
    boost_docs !! 1%nat = Some (mkBoostDoc "doc-2" "Second" EmptyString 1 true).
Proof.
  destruct (boosted_docs_keep_order_and_have_links manage_double_env false 10 office
              (m_docs office) office eq_refl)
    as (boost_docs & Hrun & _ & Hrows).
  exists boost_docs. split; [exact Hrun | ].
  exact (Hrows 1%nat (mkDbDocument "doc-2" "Second" None 1 true) eq_refl).
Defined.

Lemma only_the_update_is_translated_witness :
  (manage_run manage_double_env
     (document_boost_update double_exn_str (mkBoostUpdateRequest "doc-1" 9999))
     strict_office).1.2
  = Raised (HTTPException 400 "boost out of range").
Proof.
  exact (f_equal (fun x => x.1.2)
           (proj2 (proj2 (only_the_update_is_translated double_exn_str manage_double_env
                            (mkBoostUpdateRequest "doc-1" 9999) strict_office)
                     "primary" None strict_office eq_refl)
              tt strict_office (Raised ValueError) strict_office eq_refl eq_refl)).
Defined.

Lemma only_the_hiding_is_translated_witness :
  (manage_run manage_double_env
     (document_hidden_update double_exn_str (mkHiddenUpdateRequest "doc-1" true))
     office).1.2
  = Returned tt.
Proof.
  exact (f_equal (fun x => x.1.2)
           (proj2 (proj2 (only_the_hiding_is_translated double_exn_str manage_double_env
                            (mkHiddenUpdateRequest "doc-1" true) office)
                     "primary" None office eq_refl)
              tt office (Returned tt) office eq_refl eq_refl)).
Defined.

Lemma removal_keeps_the_others_witness :
  exists written,
    (manage_run manage_double_env (remove_invited_user (mkUserByEmail "bob@example.com"))
                office).1.1
    = [Asked get_invited_users (Returned (m_invited office));
       Asked (write_invited_users written) (Returned 2)] /\
    "bob@example.com" ∉ written.
Proof.
  destruct (removal_keeps_the_others manage_double_env (mkUserByEmail "bob@example.com")
              office (m_invited office) office
              (manage_run manage_double_env
                 (remove_invited_user (mkUserByEmail "bob@example.com")) office).1.1
              (Returned 2)
              (manage_run manage_double_env
                 (remove_invited_user (mkUserByEmail "bob@example.com")) office).2
              eq_refl eq_refl)
    as (written & Ht & Hgone & _).
  exists written. split; [exact Ht | exact Hgone].
Defined.

Lemma bulk_invite_adds_to_the_invited_witness :
  exists written,
    NoDup written /\ "dee@example.com" ∈ written /\ "ann@example.com" ∈ written.
Proof.
  destruct (bulk_invite_adds_to_the_invited double_list_of_union manage_double_env
              ["dee@example.com"; "ann@example.com"] office (m_invited office) office
              (manage_run manage_double_env
                 (bulk_invite_users double_list_of_union
                    ["dee@example.com"; "ann@example.com"]) office).1.1
              (manage_run manage_double_env
                 (bulk_invite_users double_list_of_union
                    ["dee@example.com"; "ann@example.com"]) office).1.2
              (manage_run manage_double_env
                 (bulk_invite_users double_list_of_union
                    ["dee@example.com"; "ann@example.com"]) office).2
              eq_refl)
    as (written & _ & Hnd & Hold & Hnew & _).
  - apply NoDup_remove_dups.
  - intros x. unfold double_list_of_union. rewrite elem_of_remove_dups, elem_of_app.
    reflexivity.
  - reflexivity.
  - exists written. split; [exact Hnd | ]. split.
    + apply Hnew. left.
    + apply Hold. left.
Defined.
